(** * sl-departures-api: a shallow embedding of [main.go]

    The program is one request pipeline: query parameters, upstream fetch,
    [filterDepartures], [sort.Slice] on the expected time, and a text or a
    JSON rendering.  The definitions below follow [main.go] function by
    function.  The Go standard library is not part of the repository; the
    few library functions the program calls ([time.Parse], [Time.Format],
    [Time.Sub], [Duration.Minutes], [strconv.Atoi], [json.Marshal] on a
    string, [sort.Slice], [append], [http.Error]) are modelled by their
    documented behaviour, and where the result depends on it ([float64]
    rounding, the escapes of a JSON string, the order [sort.Slice] leaves
    equal elements in) by what the library's code does. *)

From Stdlib Require Import ZArith QArith Qround Qabs Qpower Lia Lqa Ascii String List Sorted Permutation.
From stdpp Require Import base tactics option list strings gmap.

#[local] Open Scope string_scope.
#[local] Open Scope list_scope.
#[local] Open Scope Z_scope.

(** ** Results of Go calls *)

(** A Go [error] value.  [errorString] is what [fmt.Errorf] and
    [errors.New] build; [ParseError] is the [*time.ParseError] of
    [time.Parse], kept with the text and the layout element that failed;
    [NumError] is the [*strconv.NumError] of [strconv.Atoi]. *)
Inductive error : Type :=
  | errorString (msg : string)
  | ParseError (value : string) (problem : string)
  | NumError (func num : string) (problem : string).

(** What a call does: it returns a value, returns a non-nil [error], or
    panics at run time (a slice expression out of range). *)
Inductive outcome (A : Type) : Type :=
  | Ok (a : A)
  | Err (e : error)
  | Panic (msg : string).
Arguments Ok {A} a.
Arguments Err {A} e.
Arguments Panic {A} msg.

#[global] Instance outcome_ret : MRet outcome := fun A a => Ok a.
#[global] Instance outcome_bind : MBind outcome := fun A B k m =>
  match m with
  | Ok a => k a
  | Err e => Err e
  | Panic msg => Panic msg
  end.

(** ** Strings as byte sequences *)

Definition quote_char : ascii := ascii_of_nat 34.
Definition newline_char : ascii := ascii_of_nat 10.
Definition nl : string := String newline_char EmptyString.

Definition len (s : string) : Z := Z.of_nat (String.length s).

(** The slice expression [s[lo:hi]] on a string: it panics unless
    [0 <= lo <= hi <= len(s)]. *)
Definition str_slice (s : string) (lo hi : Z) : outcome string :=
  if (0 <=? lo) && (lo <=? hi) && (hi <=? len s)
  then Ok (substring (Z.to_nat lo) (Z.to_nat (hi - lo)) s)
  else Panic "slice bounds out of range".

Definition isDigit (c : ascii) : bool :=
  (48 <=? Z.of_nat (nat_of_ascii c)) && (Z.of_nat (nat_of_ascii c) <=? 57).

Definition digit_val (c : ascii) : Z := Z.of_nat (nat_of_ascii c) - 48.
Definition digit_char (d : Z) : ascii := ascii_of_nat (Z.to_nat (d + 48)).

(** Decimal digits of a non-negative integer.  A Go [int] has at most 19
    decimal digits, so twenty rounds always reach the leading digit. *)
Fixpoint utoa_fuel (fuel : nat) (u : Z) (acc : string) : string :=
  match fuel with
  | O => acc
  | S f =>
      let acc' := String (digit_char (u mod 10)) acc in
      if u / 10 =? 0 then acc' else utoa_fuel f (u / 10) acc'
  end.

Definition utoa (u : Z) : string := utoa_fuel 20 u "".

(** [strconv.Itoa], which is also what the verb [%d] prints. *)
Definition itoa (x : Z) : string :=
  if x <? 0 then String "-" (utoa (- x)) else utoa x.

Fixpoint zeros (n : nat) : string :=
  match n with
  | O => ""
  | S k => String "0" (zeros k)
  end.

(** [appendInt] of package time: the decimal of [x], zero-padded to
    [width] digits, after a minus sign when [x] is negative. *)
Definition appendInt (x : Z) (width : nat) : string :=
  let u := Z.abs x in
  let ds := utoa u in
  (if x <? 0 then "-" else "") +:+ zeros (width - String.length ds) +:+ ds.

(** ** The type [float64]

    A finite [float64] is a rational number; an operation gives the exact
    result rounded to the nearest [float64], ties to the even mantissa
    (IEEE 754 binary64: 53 bits of mantissa, the smallest exponent -1074).
    Infinities and NaN do not occur on the numbers of this program and are
    left out. *)

Module float64.

(** The integer [e] with [2^e <= x < 2^(e+1)], for a positive [x]. *)
Definition ilog2 (x : Q) : Z :=
  let e0 := Z.log2 (Qnum x) - Z.log2 (Z.pos (Qden x)) in
  if Qle_bool (2 ^ e0)%Q x then e0 else e0 - 1.

(** The nearest integer, ties to the even one. *)
Definition rne (x : Q) : Z :=
  let f := Qfloor x in
  match (x - inject_Z f ?= 1 # 2)%Q with
  | Lt => f
  | Gt => f + 1
  | Eq => if Z.even f then f else f + 1
  end.

(** The nearest [float64]: the nearest multiple of [2^e], where [e] leaves
    the mantissa 53 bits. *)
Definition round (x : Q) : Q :=
  let e := Z.max (ilog2 (Qabs x) - 52) (-1074) in
  (inject_Z (rne (x / 2 ^ e)) * 2 ^ e)%Q.

(** [float64(n)] of an integer, [x + y] and [x / y] *)
Definition of_int (n : Z) : Q := round (inject_Z n).
Definition add (x y : Q) : Q := round (x + y).
Definition div (x y : Q) : Q := round (x / y).

End float64.

(** ** Package time *)

Module time.

(** A [time.Time] without monotonic reading, in UTC: the seconds since
    January 1 of year 1, 00:00:00 UTC, and the nanoseconds within the
    second. *)
Record Time : Type := mkTime { sec : Z; nsec : Z }.

(** A [time.Duration] is an [int64] count of nanoseconds. *)
Definition Duration : Type := Z.
Definition Nanosecond : Duration := 1.
Definition Second : Duration := 1000000000.
Definition Minute : Duration := 60 * Second.
Definition minDuration : Duration := - 2 ^ 63.
Definition maxDuration : Duration := 2 ^ 63 - 1.

Definition secondsPerMinute : Z := 60.
Definition secondsPerHour : Z := 3600.
Definition secondsPerDay : Z := 86400.
Definition daysPer400Years : Z := 365 * 400 + 97.
Definition daysPer100Years : Z := 365 * 100 + 24.
Definition daysPer4Years : Z := 365 * 4 + 1.

Definition isLeap (year : Z) : bool :=
  (year mod 4 =? 0) && (negb (year mod 100 =? 0) || (year mod 400 =? 0)).

(** [daysBefore[m]]: the days of a non-leap year before month [m+1]. *)
Definition daysBefore (m : Z) : Z :=
  nth (Z.to_nat m)
    [0; 31; 59; 90; 120; 151; 181; 212; 243; 273; 304; 334; 365] 0.

Definition daysIn (m year : Z) : Z :=
  if (m =? 2) && isLeap year then 29
  else daysBefore m - daysBefore (m - 1).

(** Days from January 1 of year 1 to January 1 of [year], counted in
    cycles of 400, 100, 4 and 1 years.  (The library counts from a year
    congruent to 1 modulo 400, far enough back that every count is
    non-negative; flooring division from year 1 gives the same cycles.) *)
Definition daysSinceEpoch (year : Z) : Z :=
  let y := year - 1 in
  let n400 := y / 400 in
  let y := y - 400 * n400 in
  let n100 := y / 100 in
  let y := y - 100 * n100 in
  let n4 := y / 4 in
  let y := y - 4 * n4 in
  daysPer400Years * n400 + daysPer100Years * n100 + daysPer4Years * n4 + 365 * y.

(** [time.Date(year, month, day, hour, min, sec, nsec, time.UTC)] on
    fields that are already in range (as [Parse] has checked them). *)
Definition Date (year month day hour min s ns : Z) : Time :=
  let d := daysSinceEpoch year + daysBefore (month - 1) in
  let d := if isLeap year && (3 <=? month) then d + 1 else d in
  let d := d + (day - 1) in
  mkTime (d * secondsPerDay + hour * secondsPerHour + min * secondsPerMinute + s) ns.

(** The year and the day within it of a day count. *)
Definition absYear (days : Z) : Z * Z :=
  let d := days in
  let n := d / daysPer400Years in
  let y := 400 * n in
  let d := d - daysPer400Years * n in
  let n := d / daysPer100Years in
  let n := n - n / 4 in
  let y := y + 100 * n in
  let d := d - daysPer100Years * n in
  let n := d / daysPer4Years in
  let y := y + 4 * n in
  let d := d - daysPer4Years * n in
  let n := d / 365 in
  let n := n - n / 4 in
  let y := y + n in
  let d := d - 365 * n in
  (y + 1, d).

(** The month and day of the month of day [yday] (from 0) of a year. *)
Definition monthDay (leap : bool) (yday : Z) : Z * Z :=
  if leap && (yday =? 31 + 29 - 1) then (2, 29)
  else
    let day := if leap && (31 + 29 - 1 <? yday) then yday - 1 else yday in
    let month := day / 31 in
    let e := daysBefore (month + 1) in
    if e <=? day then (month + 2, day - e + 1)
    else (month + 1, day - daysBefore month + 1).

(** [t.Date()]: year, month, day. *)
Definition date (t : Time) : Z * Z * Z :=
  let '(year, yday) := absYear (sec t / secondsPerDay) in
  let '(month, day) := monthDay (isLeap year) yday in
  (year, month, day).

(** [t.Clock()]: hour, minute, second. *)
Definition clock (t : Time) : Z * Z * Z :=
  let s := sec t mod secondsPerDay in
  let hour := s / secondsPerHour in
  let s := s - hour * secondsPerHour in
  let min := s / secondsPerMinute in
  (hour, min, s - min * secondsPerMinute).

(** [t.Before(u)], [t.Equal(u)]. *)
Definition Before (t u : Time) : bool :=
  (sec t <? sec u) || ((sec t =? sec u) && (nsec t <? nsec u)).
Definition Equal (t u : Time) : bool :=
  (sec t =? sec u) && (nsec t =? nsec u).

(** [t.Sub(u)]: the duration [t-u]; when it does not fit a [Duration]
    the maximum (or minimum) duration is returned. *)
Definition Sub (t u : Time) : Duration :=
  let d := (sec t - sec u) * Second + (nsec t - nsec u) in
  if d <? minDuration then minDuration
  else if maxDuration <? d then maxDuration
  else d.

(** [d.Minutes()]:
    [min := d / Minute; nsec := d % Minute;
     return float64(min) + float64(nsec)/(60*1e9)] *)
Definition Minutes (d : Duration) : Q :=
  let min := Z.quot d Minute in
  let nsec := Z.rem d Minute in
  float64.add (float64.of_int min)
    (float64.div (float64.of_int nsec) (float64.of_int 60000000000)).

(** The elements of a layout, as [nextStdChunk] cuts it. *)
Inductive chunk : Type :=
  | lit (s : string)
  | stdLongYear          (* 2006 *)
  | stdZeroMonth         (* 01 *)
  | stdZeroDay           (* 02 *)
  | stdHour              (* 15 *)
  | stdZeroMinute        (* 04 *)
  | stdZeroSecond.       (* 05 *)

Definition layout : Type := list chunk.

Definition format_chunk (t : Time) (c : chunk) : string :=
  let '(year, month, day) := date t in
  let '(hour, min, s) := clock t in
  match c with
  | lit l => l
  | stdLongYear => appendInt year 4
  | stdZeroMonth => appendInt month 2
  | stdZeroDay => appendInt day 2
  | stdHour => appendInt hour 2
  | stdZeroMinute => appendInt min 2
  | stdZeroSecond => appendInt s 2
  end.

(** [t.Format(layout)]. *)
Definition Format (t : Time) (l : layout) : string :=
  String.concat "" (map (format_chunk t) l).

(** The day of the year (from 0) of a date, and the days of a month,
    for a year that is a leap year or not. *)
Definition yday_of (leap : bool) (m d : Z) : Z :=
  (if leap && (3 <=? m) then daysBefore (m - 1) + 1 else daysBefore (m - 1)) + (d - 1).

Definition daysIn_leap (leap : bool) (m : Z) : Z :=
  if (m =? 2) && leap then 29 else daysBefore m - daysBefore (m - 1).

(** *** Parsing *)

(** The fields [Parse] collects while it walks the layout. *)
Record fields : Type := mkFields {
  f_year : Z; f_month : Z; f_day : Z;
  f_hour : Z; f_min : Z; f_sec : Z; f_nsec : Z
}.

(** Before any element is read: year 0, January 1, midnight. *)
Definition fields0 : fields := mkFields 0 1 1 0 0 0 0.

(** [getnum]: a one- or two-digit number; with [fixed], two digits. *)
Definition getnum (s : string) (fixed : bool) : option (Z * string) :=
  match s with
  | String c0 rest =>
      if isDigit c0 then
        match rest with
        | String c1 rest' =>
            if isDigit c1 then Some (digit_val c0 * 10 + digit_val c1, rest')
            else if fixed then None else Some (digit_val c0, rest)
        | EmptyString => if fixed then None else Some (digit_val c0, rest)
        end
      else None
  | EmptyString => None
  end.

(** [skip]: the value has to start with the literal text of the layout
    (the literals of the layouts used here hold no space). *)
Fixpoint skip (value prefix : string) : option string :=
  match prefix with
  | EmptyString => Some value
  | String p prefix' =>
      match value with
      | String v value' => if Ascii.eqb v p then skip value' prefix' else None
      | EmptyString => None
      end
  end.

(** Four digits of a year. *)
Definition getyear (value : string) : option (Z * string) :=
  match value with
  | String a (String b (String c (String d rest))) =>
      if isDigit a && isDigit b && isDigit c && isDigit d
      then Some (((digit_val a * 10 + digit_val b) * 10 + digit_val c) * 10
                 + digit_val d, rest)
      else None
  | _ => None
  end.

Definition commaOrPeriod (c : ascii) : bool :=
  Ascii.eqb c "." || Ascii.eqb c ",".

(** The longest run of digits a string starts with, and what follows. *)
Fixpoint span_digits (s : string) : string * string :=
  match s with
  | String c rest =>
      if isDigit c
      then let '(ds, tl) := span_digits rest in (String c ds, tl)
      else (EmptyString, s)
  | EmptyString => (EmptyString, EmptyString)
  end.

Fixpoint digits_val (acc : Z) (ds : string) : Z :=
  match ds with
  | String c rest => digits_val (acc * 10 + digit_val c) rest
  | EmptyString => acc
  end.

(** [parseNanoseconds]: at most nine digits of the fraction count, scaled
    to nanoseconds. *)
Definition parseNanoseconds (ds : string) : Z :=
  let ds9 := substring 0 9 ds in
  digits_val 0 ds9 * 10 ^ (9 - Z.of_nat (String.length ds9)).

Definition bad (value problem : string) {A} : outcome A :=
  Err (ParseError value problem).

(** One layout element against the rest of the value. *)
Definition parse_chunk (c : chunk) (st : fields) (value : string)
  : outcome (fields * string) :=
  match c with
  | lit l =>
      match skip value l with
      | Some value' => Ok (st, value')
      | None => bad value "literal"
      end
  | stdLongYear =>
      match getyear value with
      | Some (y, value') =>
          Ok (mkFields y (f_month st) (f_day st) (f_hour st) (f_min st)
                (f_sec st) (f_nsec st), value')
      | None => bad value "year"
      end
  | stdZeroMonth =>
      match getnum value true with
      | Some (m, value') =>
          if (m <=? 0) || (12 <? m) then bad value "month out of range"
          else Ok (mkFields (f_year st) m (f_day st) (f_hour st) (f_min st)
                     (f_sec st) (f_nsec st), value')
      | None => bad value "month"
      end
  | stdZeroDay =>
      (* any two-digit day here; the day is validated against the month
         and the year once the whole value is read *)
      match getnum value true with
      | Some (d, value') =>
          Ok (mkFields (f_year st) (f_month st) d (f_hour st) (f_min st)
                (f_sec st) (f_nsec st), value')
      | None => bad value "day"
      end
  | stdHour =>
      match getnum value false with
      | Some (h, value') =>
          if (h <? 0) || (24 <=? h) then bad value "hour out of range"
          else Ok (mkFields (f_year st) (f_month st) (f_day st) h (f_min st)
                     (f_sec st) (f_nsec st), value')
      | None => bad value "hour"
      end
  | stdZeroMinute =>
      match getnum value true with
      | Some (m, value') =>
          if (m <? 0) || (60 <=? m) then bad value "minute out of range"
          else Ok (mkFields (f_year st) (f_month st) (f_day st) (f_hour st) m
                     (f_sec st) (f_nsec st), value')
      | None => bad value "minute"
      end
  | stdZeroSecond =>
      match getnum value true with
      | Some (s, value') =>
          if (s <? 0) || (60 <=? s) then bad value "second out of range"
          else
            (* a fractional second in the value although the layout has
               none: a comma or a period, then a digit *)
            match value' with
            | String p (String d rest) =>
                if commaOrPeriod p && isDigit d then
                  let '(ds, value'') := span_digits (String d rest) in
                  Ok (mkFields (f_year st) (f_month st) (f_day st) (f_hour st)
                        (f_min st) s (parseNanoseconds ds), value'')
                else
                  Ok (mkFields (f_year st) (f_month st) (f_day st) (f_hour st)
                        (f_min st) s (f_nsec st), value')
            | _ =>
                Ok (mkFields (f_year st) (f_month st) (f_day st) (f_hour st)
                      (f_min st) s (f_nsec st), value')
            end
      | None => bad value "second"
      end
  end.

Fixpoint parse_chunks (l : layout) (st : fields) (value : string)
  : outcome fields :=
  match l with
  | [] =>
      match value with
      | EmptyString => Ok st
      | _ => bad value "extra text"
      end
  | c :: l' =>
      match parse_chunk c st value with
      | Ok (st', value') => parse_chunks l' st' value'
      | Err e => Err e
      | Panic msg => Panic msg
      end
  end.

(** [time.Parse(layout, value)]: without a zone in the layout the result
    is in UTC. *)
Definition Parse (l : layout) (value : string) : outcome Time :=
  match parse_chunks l fields0 value with
  | Ok st =>
      if (f_day st <? 1) || (daysIn (f_month st) (f_year st) <? f_day st)
      then bad value "day out of range"
      else Ok (Date (f_year st) (f_month st) (f_day st)
                 (f_hour st) (f_min st) (f_sec st) (f_nsec st))
  | Err e => Err e
  | Panic msg => Panic msg
  end.

End time.

(** ** Package unicode/utf8 *)

Module utf8.

Definition RuneError : Z := 65533.    (* U+FFFD *)
Definition RuneSelf : Z := 128.

(** The table [first] with [acceptRanges], for a byte from [RuneSelf] on:
    the size of the sequence the byte starts and the range of its second
    byte; [None] for a byte that starts no sequence. *)
Definition first (s0 : Z) : option (nat * Z * Z) :=
  if s0 <? 194 then None                          (* 0x80-0xC1 *)
  else if s0 <? 224 then Some (2%nat, 128, 191)   (* 0xC2-0xDF *)
  else if s0 =? 224 then Some (3%nat, 160, 191)   (* 0xE0 *)
  else if s0 =? 237 then Some (3%nat, 128, 159)   (* 0xED *)
  else if s0 <? 240 then Some (3%nat, 128, 191)   (* 0xE1-0xEC, 0xEE-0xEF *)
  else if s0 =? 240 then Some (4%nat, 144, 191)   (* 0xF0 *)
  else if s0 <? 244 then Some (4%nat, 128, 191)   (* 0xF1-0xF3 *)
  else if s0 =? 244 then Some (4%nat, 128, 143)   (* 0xF4 *)
  else None.                                      (* 0xF5-0xFF *)

(** [utf8.DecodeRuneInString(s)]: the first rune of [s] and its width in
    bytes; [(RuneError, 1)] where the encoding is invalid. *)
Definition DecodeRuneInString (s : string) : Z * nat :=
  match s with
  | EmptyString => (RuneError, 0%nat)
  | String c0 r0 =>
      let s0 := Z.of_nat (nat_of_ascii c0) in
      if s0 <? RuneSelf then (s0, 1%nat)
      else
        match first s0 with
        | None => (RuneError, 1%nat)
        | Some (sz, lo, hi) =>
            if (String.length s <? sz)%nat then (RuneError, 1%nat)
            else
              match r0 with
              | EmptyString => (RuneError, 1%nat)
              | String c1 r1 =>
                  let s1 := Z.of_nat (nat_of_ascii c1) in
                  if (s1 <? lo) || (hi <? s1) then (RuneError, 1%nat)
                  else if (sz <=? 2)%nat then
                    (Z.lor (Z.shiftl (Z.land s0 31) 6) (Z.land s1 63), 2%nat)
                  else
                    match r1 with
                    | EmptyString => (RuneError, 1%nat)
                    | String c2 r2 =>
                        let s2 := Z.of_nat (nat_of_ascii c2) in
                        if (s2 <? 128) || (191 <? s2) then (RuneError, 1%nat)
                        else if (sz <=? 3)%nat then
                          (Z.lor (Z.lor (Z.shiftl (Z.land s0 15) 12)
                                        (Z.shiftl (Z.land s1 63) 6))
                                 (Z.land s2 63), 3%nat)
                        else
                          match r2 with
                          | EmptyString => (RuneError, 1%nat)
                          | String c3 _ =>
                              let s3 := Z.of_nat (nat_of_ascii c3) in
                              if (s3 <? 128) || (191 <? s3) then (RuneError, 1%nat)
                              else
                                (Z.lor (Z.lor (Z.lor (Z.shiftl (Z.land s0 7) 18)
                                                     (Z.shiftl (Z.land s1 63) 12))
                                              (Z.shiftl (Z.land s2 63) 6))
                                       (Z.land s3 63), 4%nat)
                          end
                    end
              end
        end
  end.

End utf8.

(** ** Package encoding/json, on strings (Go 1.22 and later) *)

Module json.

(** [hex[n]] of ["0123456789abcdef"] *)
Definition hex_digit (n : Z) : ascii :=
  if n <? 10 then digit_char n else ascii_of_nat (Z.to_nat (n - 10 + 97)).

(** [htmlSafeSet[b]]: the bytes from the space to [0x7f] but the quote,
    the backslash and [<], [>], [&]. *)
Definition htmlSafe (n : Z) : bool :=
  (32 <=? n) && (n <? 128)
  && negb ((n =? 34) || (n =? 92) || (n =? 60) || (n =? 62) || (n =? 38)).

(** A byte below [utf8.RuneSelf] inside a JSON string, as [appendString]
    writes it with HTML escaping: a byte of [htmlSafeSet] is copied, the
    quote and the backslash get a backslash, backspace, form feed,
    newline, carriage return and tab their short escape, and any other
    byte a [\u00XX] escape. *)
Definition escape_byte (c : ascii) : string :=
  let n := Z.of_nat (nat_of_ascii c) in
  if htmlSafe n then String c EmptyString
  else if (n =? 92) || (n =? 34) then String "\" (String c EmptyString)
  else if n =? 8 then "\b"
  else if n =? 12 then "\f"
  else if n =? 10 then "\n"
  else if n =? 13 then "\r"
  else if n =? 9 then "\t"
  else "\u00" +:+ String (hex_digit (Z.shiftr n 4)) (String (hex_digit (Z.land n 15)) EmptyString).

(** The loop of [appendString] over the bytes of [src].  At the first
    byte of a rune ([pending] is 0) the rune is decoded: an invalid byte
    is written as [\ufffd], U+2028 and U+2029 as [\u2028] and [\u2029],
    and any other rune is copied; [pending] counts the bytes of the rune
    still to pass, which are copied ([copy]) or, after an escape, left
    out. *)
Fixpoint escape_loop (src : string) (pending : nat) (copy : bool) : string :=
  match src with
  | EmptyString => EmptyString
  | String b rest =>
      match pending with
      | S pending' =>
          if copy then String b (escape_loop rest pending' copy)
          else escape_loop rest pending' copy
      | O =>
          if Z.of_nat (nat_of_ascii b) <? utf8.RuneSelf then
            escape_byte b +:+ escape_loop rest 0 true
          else
            let '(c, size) := utf8.DecodeRuneInString src in
            if (c =? utf8.RuneError) && (size =? 1)%nat then
              "\ufffd" +:+ escape_loop rest 0 true
            else if (c =? 8232) || (c =? 8233) then      (* U+2028, U+2029 *)
              "\u202" +:+ String (hex_digit (Z.land c 15))
                                 (escape_loop rest (size - 1) false)
            else String b (escape_loop rest (size - 1) true)
      end
  end.

Definition escape (s : string) : string := escape_loop s 0 true.

(** [json.Marshal(s)] for a string [s]. *)
Definition Marshal_string (s : string) : string :=
  String quote_char (escape s +:+ String quote_char EmptyString).

End json.

(** ** [main.go]: the data model *)

(** [type CustomTime struct { time.Time }] *)
Record CustomTime : Type := mkCustomTime { Time : time.Time }.

(** [type Line struct] *)
Record Line : Type := mkLine { ID : Z; Designation : string }.

(** [type Departure struct] *)
Record Departure : Type := mkDeparture {
  Destination : string;
  Direction : string;
  Scheduled : CustomTime;
  Expected : CustomTime;
  Line_ : Line
}.

(** The layout ["2006-01-02T15:04:05"] of the codec and the layout
    ["15:04"] of the text report, cut into their elements. *)
Definition layout_datetime : time.layout :=
  [time.stdLongYear; time.lit "-"; time.stdZeroMonth; time.lit "-";
   time.stdZeroDay; time.lit "T"; time.stdHour; time.lit ":";
   time.stdZeroMinute; time.lit ":"; time.stdZeroSecond].

Definition layout_clock : time.layout :=
  [time.stdHour; time.lit ":"; time.stdZeroMinute].

(** ** The time codec *)

(** [func (ct CustomTime) MarshalJSON() ([]byte, error)] *)
Definition MarshalJSON (ct : CustomTime) : outcome string :=
  Ok (json.Marshal_string (time.Format (Time ct) layout_datetime)).

(** [func (ct *CustomTime) UnmarshalJSON(b []byte) error]; the outcome is
    the value stored through [ct] when the call returns [nil]. *)
Definition UnmarshalJSON (b : string) : outcome CustomTime :=
  let s := b in
  s ← str_slice s 1 (len s - 1);
  match time.Parse layout_datetime s with
  | Ok t => Ok (mkCustomTime t)
  | Err e => Err e
  | Panic msg => Panic msg
  end.


(** ** Package strconv *)

Module strconv.

Fixpoint all_digits (s : string) : bool :=
  match s with
  | EmptyString => true
  | String c rest => isDigit c && all_digits rest
  end.

(** [strconv.Atoi(s)]: an optional sign, then one or more decimal digits;
    the value has to fit a 64-bit [int]. *)
Definition Atoi (s : string) : outcome Z :=
  let '(neg, body) :=
    match s with
    | String c rest =>
        if Ascii.eqb c "-" then (true, rest)
        else if Ascii.eqb c "+" then (false, rest)
        else (false, s)
    | EmptyString => (false, s)
    end in
  match body with
  | EmptyString => Err (NumError "Atoi" s "invalid syntax")
  | _ =>
      if all_digits body then
        let n := time.digits_val 0 body in
        let v := if neg : bool then - n else n in
        if (v <? - 2 ^ 63) || (2 ^ 63 - 1 <? v)
        then Err (NumError "Atoi" s "value out of range")
        else Ok v
      else Err (NumError "Atoi" s "invalid syntax")
  end.

End strconv.

(** ** Slices as values *)

(** A slice value as the program observes it: [nil], or a sequence of
    elements.  ([nil] and an empty slice both have length 0, and differ
    when encoded to JSON.) *)
Inductive slice (A : Type) : Type :=
  | nilSlice
  | Slice (l : list A).
Arguments nilSlice {A}.
Arguments Slice {A} l.

Definition elems {A} (s : slice A) : list A :=
  match s with
  | nilSlice => []
  | Slice l => l
  end.

(** [append(s, x)] *)
Definition append {A} (s : slice A) (x : A) : slice A := Slice (elems s ++ [x]).

(** ** [filterDepartures] *)

(** Whether the body of the loop reaches a [continue] for record [d]. *)
Definition continues (lineID direction : string) (d : Departure) : bool :=
  if negb (String.eqb lineID "") &&
     match strconv.Atoi lineID with
     | Ok id => negb (ID (Line_ d) =? id)        (* d.Line.ID != id *)
     | _ => true                                  (* err != nil *)
     end
  then true
  else if negb (String.eqb direction "") && negb (String.eqb (Direction d) direction)
  then true
  else false.

(** [func filterDepartures(departures []Departure, lineID, direction string) []Departure] *)
Definition filterDepartures (departures : list Departure) (lineID direction : string)
  : slice Departure :=
  fold_left
    (fun filtered d =>
       if continues lineID direction d then filtered else append filtered d)
    departures nilSlice.

(** The filter as the specification words it: a record is kept when the
    line filter is empty or parses as the record's line identifier, and the
    direction filter is empty or equals the record's direction. *)
Definition kept (lineID direction : string) (d : Departure) : bool :=
  (String.eqb lineID "" ||
   match strconv.Atoi lineID with
   | Ok id => id =? ID (Line_ d)
   | _ => false
   end) &&
  (String.eqb direction "" || String.eqb (Direction d) direction).

(** ** [filterDepartures] on a store of backing arrays *)

Module mem.

Definition loc : Type := positive.

(** A slice header: the backing array ([None] for a [nil] slice), the
    offset of the first element in it, the length and the capacity. *)
Record header : Type := mkHeader {
  ptr : option loc;
  off : nat;
  length : nat;
  cap : nat
}.

Definition nilHeader : header := mkHeader None 0 0 0.

(** The zero value of [Departure]. *)
Definition zeroTime : CustomTime := mkCustomTime (time.mkTime 0 0).
Definition zeroDeparture : Departure :=
  mkDeparture "" "" zeroTime zeroTime (mkLine 0 "").

(** The elements a header shows of a store. *)
Definition view (h : gmap loc (list Departure)) (s : header) : list Departure :=
  match ptr s with
  | None => []
  | Some l => take (length s) (drop (off s) (default [] (h !! l)))
  end.

(** A header is valid in a store when its window lies inside its array. *)
Definition valid (h : gmap loc (list Departure)) (s : header) : Prop :=
  match ptr s with
  | None => length s = 0%nat /\ cap s = 0%nat
  | Some l =>
      exists arr, h !! l = Some arr /\
                  (length s <= cap s)%nat /\ (off s + cap s <= List.length arr)%nat
  end.

(** [s[i]] *)
Definition index (h : gmap loc (list Departure)) (s : header) (i : nat)
  : outcome Departure :=
  if decide (i < length s)%nat then
    match ptr s with
    | Some l =>
        match default [] (h !! l) !! (off s + i)%nat with
        | Some d => Ok d
        | None => Panic "index out of range"
        end
    | None => Panic "index out of range"
    end
  else Panic "index out of range".

(** What the loop of [filterDepartures] keeps true of the store [h0] it
    started from, the store [h] it has reached and its slice [s]: the
    arrays of [h0] are as they were, [s] is valid, and the array of [s]
    is none of those of [h0]. *)
Record inv (h0 h : gmap loc (list Departure)) (s : header) : Prop := mkInv {
  inv_frame : forall l arr, h0 !! l = Some arr -> h !! l = Some arr;
  inv_valid : valid h s;
  inv_fresh : forall l, ptr s = Some l -> h0 !! l = None
}.

Section Append.

(** The capacity [append] picks when it has to grow: the library's
    policy, of which only this much is documented: the new array holds
    the elements. *)
Variable growcap : nat -> nat -> nat.
Hypothesis growcap_enough : forall oldcap needed, (needed <= growcap oldcap needed)%nat.

(** [append(s, x)]: with spare capacity the element is written into the
    backing array of [s]; otherwise a new array is allocated and the
    elements are copied. *)
Definition append (h : gmap loc (list Departure)) (s : header) (x : Departure)
  : gmap loc (list Departure) * header :=
  match ptr s with
  | Some l =>
      if decide (length s < cap s)%nat then
        (alter (fun arr => <[(off s + length s)%nat := x]> arr) l h,
         mkHeader (Some l) (off s) (S (length s)) (cap s))
      else
        let l' := fresh (dom h) in
        let c := growcap (cap s) (S (length s)) in
        (<[l' := view h s ++ x :: replicate (c - S (length s)) zeroDeparture]> h,
         mkHeader (Some l') 0 (S (length s)) c)
  | None =>
      let l' := fresh (dom h) in
      let c := growcap 0 1 in
      (<[l' := x :: replicate (c - 1) zeroDeparture]> h,
       mkHeader (Some l') 0 1 c)
  end.

(** The [for _, d := range departures] loop from index [i], [n] rounds
    to go; every round reads [departures[i]] from the current store. *)
Fixpoint range_loop (n i : nat) (departures : header) (lineID direction : string)
    (h : gmap loc (list Departure)) (filtered : header)
  : outcome (gmap loc (list Departure) * header) :=
  match n with
  | O => Ok (h, filtered)
  | S n' =>
      match index h departures i with
      | Ok d =>
          if continues lineID direction d
          then range_loop n' (S i) departures lineID direction h filtered
          else
            let '(h', filtered') := append h filtered d in
            range_loop n' (S i) departures lineID direction h' filtered'
      | Err e => Err e
      | Panic msg => Panic msg
      end
  end.

(** [filterDepartures] with the store made explicit: [var filtered
    []Departure] starts as the [nil] header. *)
Definition filterDepartures (h : gmap loc (list Departure)) (departures : header)
    (lineID direction : string)
  : outcome (gmap loc (list Departure) * header) :=
  range_loop (length departures) 0 departures lineID direction h nilHeader.

End Append.

End mem.

(** ** Package net/http, as far as the handlers use it *)

Module http.

(** A request: its path and [r.URL.Query()], the parsed query string. *)
Record Request : Type := mkRequest {
  Method : string;
  Path : string;
  Query : gmap string (list string)
}.

(** [Values.Get(key)]: the first value of the key, or the empty string. *)
Definition Get (v : gmap string (list string)) (key : string) : string :=
  match v !! key with
  | Some (x :: _) => x
  | _ => ""
  end.

(** What a handler has sent: the header map, the status line once it is
    written, and the body so far. *)
Record ResponseWriter : Type := mkResponseWriter {
  Header : gmap string string;
  status : option Z;
  body : string
}.

Definition newResponseWriter : ResponseWriter := mkResponseWriter ∅ None "".

Definition StatusOK : Z := 200.
Definition StatusInternalServerError : Z := 500.
Definition StatusNotFound : Z := 404.

(** [w.Header().Set(key, value)] *)
Definition Header_Set (key value : string) (w : ResponseWriter) : ResponseWriter :=
  mkResponseWriter (<[key := value]> (Header w)) (status w) (body w).

(** [w.WriteHeader(code)]; a second call changes nothing. *)
Definition WriteHeader (code : Z) (w : ResponseWriter) : ResponseWriter :=
  match status w with
  | None => mkResponseWriter (Header w) (Some code) (body w)
  | Some _ => w
  end.

(** [w.Write(data)]; the first write sends status 200 if none was sent. *)
Definition Write (data : string) (w : ResponseWriter) : ResponseWriter :=
  let w := WriteHeader StatusOK w in
  mkResponseWriter (Header w) (status w) (body w +:+ data).

(** [http.Error(w, error, code)] *)
Definition Error (w : ResponseWriter) (err : string) (code : Z) : ResponseWriter :=
  let w := Header_Set "Content-Type" "text/plain; charset=utf-8" w in
  let w := Header_Set "X-Content-Type-Options" "nosniff" w in
  let w := WriteHeader code w in
  Write (err +:+ nl) w.

End http.

(** [err.Error()].  The texts of the two library errors are abridged. *)
Definition Error_ (e : error) : string :=
  match e with
  | errorString msg => msg
  | ParseError value problem => "parsing time " +:+ value +:+ ": " +:+ problem
  | NumError func num problem => "strconv." +:+ func +:+ ": parsing " +:+ num +:+ ": " +:+ problem
  end.

(** ** JSON encoding of the departures *)

Definition json_Line (l : Line) : string :=
  "{" +:+ json.Marshal_string "id" +:+ ":" +:+ itoa (ID l) +:+ ","
      +:+ json.Marshal_string "designation" +:+ ":" +:+ json.Marshal_string (Designation l)
      +:+ "}".

Definition json_Departure (d : Departure) : outcome string :=
  scheduled ← MarshalJSON (Scheduled d);
  expected ← MarshalJSON (Expected d);
  Ok ("{" +:+ json.Marshal_string "destination" +:+ ":" +:+ json.Marshal_string (Destination d) +:+ ","
          +:+ json.Marshal_string "direction" +:+ ":" +:+ json.Marshal_string (Direction d) +:+ ","
          +:+ json.Marshal_string "scheduled" +:+ ":" +:+ scheduled +:+ ","
          +:+ json.Marshal_string "expected" +:+ ":" +:+ expected +:+ ","
          +:+ json.Marshal_string "line" +:+ ":" +:+ json_Line (Line_ d)
          +:+ "}").

Fixpoint json_elements (l : list Departure) : outcome (list string) :=
  match l with
  | [] => Ok []
  | d :: l' =>
      s ← json_Departure d;
      ss ← json_elements l';
      Ok (s :: ss)
  end.

(** [json.Marshal] of a [[]Departure]: [null] for the [nil] slice, an
    array otherwise. *)
Definition json_Departures (s : slice Departure) : outcome string :=
  match s with
  | nilSlice => Ok "null"
  | Slice l =>
      ss ← json_elements l;
      Ok ("[" +:+ String.concat "," ss +:+ "]")
  end.

(** [json.NewEncoder(w).Encode(v)]: the encoding and a newline; nothing is
    written when the encoding fails. *)
Definition Encode (w : http.ResponseWriter) (v : slice Departure) : http.ResponseWriter :=
  match json_Departures v with
  | Ok s => http.Write (s +:+ nl) w
  | _ => w
  end.

(** ** The text report *)

(** The conversion [int(f)] of a float: the fraction is discarded
    (truncation towards zero). *)
Definition int_of_float (f : Q) : Z := Z.quot (Qnum f) (Z.pos (Qden f)).

Definition divider : string := "--------------------".

(** [delay := d.Expected.Sub(d.Scheduled.Time)] and the number
    [int(delay.Minutes())] the report prints. *)
Definition delay (d : Departure) : time.Duration :=
  time.Sub (Time (Expected d)) (Time (Scheduled d)).

Definition delay_minutes (d : Departure) : Z :=
  int_of_float (time.Minutes (delay d)).


(** The body of the loop of [prettyPrintDepartures]: what is written for
    one departure. *)
Definition print_block (d : Departure) : string :=
  let scheduledTime := time.Format (Time (Scheduled d)) layout_clock in
  let expectedTime := time.Format (Time (Expected d)) layout_clock in
  "Line " +:+ Designation (Line_ d) +:+ " (ID: " +:+ itoa (ID (Line_ d)) +:+ ") to "
    +:+ Destination d +:+ nl
  +:+ "  Direction: " +:+ Direction d +:+ nl
  +:+ "  Scheduled: " +:+ scheduledTime +:+ nl
  +:+ "  Expected:  " +:+ expectedTime +:+ nl
  +:+ (if negb (String.eqb scheduledTime expectedTime)
       then "  Delay:     " +:+ itoa (delay_minutes d) +:+ " minutes" +:+ nl
       else "")
  +:+ divider +:+ nl.

(** [func prettyPrintDepartures(w http.ResponseWriter, departures []Departure, siteID string)] *)
Definition prettyPrintDepartures (w : http.ResponseWriter) (departures : slice Departure)
    (siteID : string) : http.ResponseWriter :=
  if Z.of_nat (List.length (elems departures)) =? 0 then
    http.Write ("No departures found matching the criteria for site ID: " +:+ siteID +:+ nl) w
  else
    let w := http.Write ("Upcoming Departures for site ID " +:+ siteID
                         +:+ " (sorted by expected departure time):" +:+ nl) w in
    let w := http.Write (divider +:+ nl) w in
    fold_left (fun w d => http.Write (print_block d) w) (elems departures) w.

(** ** The pipeline and the handlers *)

(** [type Response struct] *)
Record Response : Type := mkResponse { Departures : slice Departure }.

(** The comparison handed to [sort.Slice]:
    [filteredDepartures[i].Expected.Before(filteredDepartures[j].Expected.Time)]. *)
Definition less (a b : Departure) : bool :=
  time.Before (Time (Expected a)) (Time (Expected b)).

Section Pipeline.

(** [fetchDepartures]: the GET to the provider and the decoding of its
    body, which this development does not look into.  [Err] is a returned
    error, [Panic] a panic while decoding. *)
Variable fetchDepartures : string -> outcome Response.

(** [sort.Slice], on the elements of the slice and the comparison. *)
Variable sort_Slice : (Departure -> Departure -> bool) -> list Departure -> list Departure.

Definition sort_in_place (s : slice Departure) : slice Departure :=
  match s with
  | nilSlice => nilSlice
  | Slice l => Slice (sort_Slice less l)
  end.

(** [func getDepartures(r *http.Request) ([]Departure, string, error)];
    [Err] stands for a non-nil error (the callers then use nothing else of
    the result). *)
Definition getDepartures (r : http.Request) : outcome (slice Departure * string) :=
  let siteID := http.Get (http.Query r) "siteId" in
  if String.eqb siteID "" then
    Err (errorString "siteId query parameter is required")
  else
    match fetchDepartures siteID with
    | Ok response =>
        let lineID := http.Get (http.Query r) "lineId" in
        let direction := http.Get (http.Query r) "direction" in
        let filteredDepartures :=
          filterDepartures (elems (Departures response)) lineID direction in
        let filteredDepartures := sort_in_place filteredDepartures in
        Ok (filteredDepartures, siteID)
    | Err err => Err err
    | Panic msg => Panic msg
    end.

(** [func handleDepartures(w http.ResponseWriter, r *http.Request)] *)
Definition handleDepartures (w : http.ResponseWriter) (r : http.Request)
  : outcome http.ResponseWriter :=
  match getDepartures r with
  | Err err =>
      Ok (http.Error w ("Error fetching departure data: " +:+ Error_ err)
            http.StatusInternalServerError)
  | Ok (departures, siteID) => Ok (prettyPrintDepartures w departures siteID)
  | Panic msg => Panic msg
  end.

(** [func handleDeparturesJSON(w http.ResponseWriter, r *http.Request)] *)
Definition handleDeparturesJSON (w : http.ResponseWriter) (r : http.Request)
  : outcome http.ResponseWriter :=
  match getDepartures r with
  | Err err =>
      Ok (http.Error w ("Error fetching departure data: " +:+ Error_ err)
            http.StatusInternalServerError)
  | Ok (departures, _) =>
      let departures :=
        if Z.of_nat (List.length (elems departures)) =? 0 then Slice [] else departures in
      let w := http.Header_Set "Content-Type" "application/json" w in
      Ok (Encode w departures)
  | Panic msg => Panic msg
  end.

(** The two routes [main] registers; any other path is not found. *)
Definition serve (r : http.Request) : outcome http.ResponseWriter :=
  if String.eqb (http.Path r) "/departures" then
    handleDepartures http.newResponseWriter r
  else if String.eqb (http.Path r) "/departures/json" then
    handleDeparturesJSON http.newResponseWriter r
  else
    Ok (http.Error http.newResponseWriter "404 page not found" http.StatusNotFound).

End Pipeline.

(** ** Timestamps on the wire *)

(** A string between two quote characters, as a JSON string value is. *)
Definition quoted (s : string) : string :=
  String quote_char (s +:+ String quote_char EmptyString).

(** The fixed pattern [YYYY-MM-DDTHH:MM:SS]: nineteen characters, digits
    at the places of the letters. *)
Definition in_pattern (s : string) : bool :=
  match s with
  | String y1 (String y2 (String y3 (String y4 (String p1
    (String m1 (String m2 (String p2
    (String d1 (String d2 (String p3
    (String h1 (String h2 (String p4
    (String n1 (String n2 (String p5
    (String s1 (String s2 EmptyString)))))))))))))))))) =>
      isDigit y1 && isDigit y2 && isDigit y3 && isDigit y4 && Ascii.eqb p1 "-" &&
      isDigit m1 && isDigit m2 && Ascii.eqb p2 "-" &&
      isDigit d1 && isDigit d2 && Ascii.eqb p3 "T" &&
      isDigit h1 && isDigit h2 && Ascii.eqb p4 ":" &&
      isDigit n1 && isDigit n2 && Ascii.eqb p5 ":" &&
      isDigit s1 && isDigit s2
  | _ => false
  end.

(** The ranges [time.Parse] checks on the numbers it has read. *)
Definition fields_ok (Y M D h mi s : Z) : bool :=
  (1 <=? M) && (M <=? 12) && (1 <=? D) && (D <=? time.daysIn M Y) &&
  (h <? 24) && (mi <? 60) && (s <? 60).

(** The number written by the [n] characters from position [i]. *)
Definition num_at (s : string) (i n : nat) : Z :=
  time.digits_val 0 (substring i n s).

(** A string in the pattern names a timestamp when its month, day, hour,
    minute and second are those of a calendar date and a time of day. *)
Definition valid_timestamp (s : string) : bool :=
  let year := num_at s 0 4 in
  let month := num_at s 5 2 in
  let day := num_at s 8 2 in
  (1 <=? month) && (month <=? 12) &&
  (1 <=? day) && (day <=? time.daysIn month year) &&
  (num_at s 11 2 <? 24) && (num_at s 14 2 <? 60) && (num_at s 17 2 <? 60).

(** The bytes of [b] without the first and the last one. *)
Definition interior (b : string) : string :=
  substring 1 (String.length b - 2) b.

(** ** Order of the departures *)

Definition same_expected (a b : Departure) : bool :=
  time.Equal (Time (Expected a)) (Time (Expected b)).

(** Ascending by expected time: no record is before an earlier one. *)
Definition ascending (l : list Departure) : Prop :=
  StronglySorted (fun a b => less b a = false) l.

(** The records of one expected time come in [output] in the order they
    have in [input]. *)
Definition keeps_ties (input output : list Departure) : Prop :=
  forall d0, List.filter (same_expected d0) output = List.filter (same_expected d0) input.

(** What the library documents of [sort.Slice]: the slice ends up sorted by
    the comparison, with the elements it had; "the sort is not guaranteed
    to be stable". *)
Definition sort_Slice_contract
    (srt : (Departure -> Departure -> bool) -> list Departure -> list Departure) : Prop :=
  forall l, Permutation (srt less l) l /\ ascending (srt less l).

(** What the library asks of the comparison, whatever it compares: that
    it "must describe a transitive ordering", in which two elements neither
    of which is less than the other count as equal. *)
Definition strict_weak_order {A} (lt : A -> A -> bool) : Prop :=
  (forall a, lt a a = false) /\
  (forall a b c, lt a b = true -> lt b c = true -> lt a c = true) /\
  (forall a b c, lt a b = false -> lt b c = false -> lt a c = false).

(** What the library documents of [sort.Slice] for such a comparison: the
    slice keeps its elements, and afterwards no element is less than one
    that comes before it. *)
Definition sort_Slice_sorts
    (srt : (Departure -> Departure -> bool) -> list Departure -> list Departure) : Prop :=
  forall lt, strict_weak_order lt ->
    forall l, Permutation (srt lt l) l /\
              StronglySorted (fun a b => lt b a = false) (srt lt l).

(** The order of the time line, read off the seconds and nanoseconds of two
    times: [t] is not later than [u]. *)
Definition not_after (t u : time.Time) : Prop :=
  time.sec t < time.sec u \/ (time.sec t = time.sec u /\ time.nsec t <= time.nsec u).

(** Every record is expected no later than the records that follow it. *)
Definition in_expected_order (l : list Departure) : Prop :=
  StronglySorted (fun a b => not_after (Time (Expected a)) (Time (Expected b))) l.

(** A sort within that contract, for the examples: one pass of
    compare-and-swap at distance six, then an insertion sort. *)
Module shellsort.

Definition swap {A} (l : list A) (i j : nat) : list A :=
  match l !! i, l !! j with
  | Some x, Some y => <[i := y]> (<[j := x]> l)
  | _, _ => l
  end.

(** [for i := gap; i < len; i++ { if less(i, i-gap) { swap(i, i-gap) } }] *)
Definition gap_pass {A} (lt : A -> A -> bool) (gap : nat) (l : list A) : list A :=
  foldl
    (fun l i =>
       match l !! i, l !! (i - gap)%nat with
       | Some x, Some y => if lt x y then swap l i (i - gap)%nat else l
       | _, _ => l
       end)
    l (seq gap (List.length l - gap)).

(** Insertion before the first element that is not smaller. *)
Fixpoint insert {A} (lt : A -> A -> bool) (x : A) (l : list A) : list A :=
  match l with
  | [] => [x]
  | y :: l' => if lt y x then y :: insert lt x l' else x :: y :: l'
  end.

Definition insertion_sort {A} (lt : A -> A -> bool) (l : list A) : list A :=
  foldr (insert lt) [] l.

Definition sort {A} (lt : A -> A -> bool) (l : list A) : list A :=
  insertion_sort lt (gap_pass lt 6 l).

End shellsort.

(** ** Package sort: [sort.Slice] as the library has it since Go 1.19

    [sort.Slice(x, less)] runs [pdqsort_func] on the whole slice.  The
    functions below follow [zsortfunc.go]: the slice is a list, [Less] and
    [Swap] go through indices, and every loop runs on a count of rounds
    that is never used up on the slice it gets. *)

Module pdqsort.

Section Sort.

Context {A : Type} (lt : A -> A -> bool).

(** [data.Less(i, j)] and [data.Swap(i, j)] *)
Definition Less (data : list A) (i j : nat) : bool :=
  match data !! i, data !! j with
  | Some x, Some y => lt x y
  | _, _ => false
  end.

Definition Swap (data : list A) (i j : nat) : list A := shellsort.swap data i j.

(** [for j := i; j > a && data.Less(j, j-1); j-- { data.Swap(j, j-1) }] *)
Fixpoint sink (rounds : nat) (data : list A) (a j : nat) : list A :=
  match rounds with
  | O => data
  | S rounds' =>
      if (a <? j)%nat && Less data j (j - 1)
      then sink rounds' (Swap data j (j - 1)) a (j - 1)
      else data
  end.

(** [for i := a + 1; i < b; i++ { ... }] *)
Fixpoint insertion_loop (rounds : nat) (data : list A) (a i b : nat) : list A :=
  match rounds with
  | O => data
  | S rounds' =>
      if (i <? b)%nat
      then insertion_loop rounds' (sink i data a i) a (S i) b
      else data
  end.

(** [insertionSort_func(data, a, b)] *)
Definition insertionSort (data : list A) (a b : nat) : list A :=
  insertion_loop (b - a) data a (a + 1) b.

(** [siftDown_func(data, lo, hi, first)] *)
Fixpoint siftDown (rounds : nat) (data : list A) (root hi first : nat) : list A :=
  match rounds with
  | O => data
  | S rounds' =>
      let child := (2 * root + 1)%nat in
      if (hi <=? child)%nat then data
      else
        let child :=
          if (child + 1 <? hi)%nat && Less data (first + child) (first + child + 1)
          then (child + 1)%nat else child in
        if negb (Less data (first + root) (first + child)) then data
        else siftDown rounds' (Swap data (first + root) (first + child)) child hi first
  end.

(** [heapSort_func(data, a, b)]: the two loops run [i] downwards to 0. *)
Fixpoint build_heap (i : nat) (data : list A) (hi first : nat) : list A :=
  let data := siftDown hi data i hi first in
  match i with
  | O => data
  | S i' => build_heap i' data hi first
  end.

Fixpoint pop_heap (i : nat) (data : list A) (first : nat) : list A :=
  let data := Swap data first (first + i) in
  let data := siftDown i data 0 i first in
  match i with
  | O => data
  | S i' => pop_heap i' data first
  end.

Definition heapSort (data : list A) (a b : nat) : list A :=
  let first := a in
  let hi := (b - a)%nat in
  match hi with
  | O => data
  | S _ =>
      let data := build_heap ((hi - 1) / 2) data hi first in
      pop_heap (hi - 1) data first
  end.

(** [for i <= j && data.Less(i, a) { i++ }] *)
Fixpoint scan_up (rounds : nat) (data : list A) (a i j : nat) : nat :=
  match rounds with
  | O => i
  | S rounds' =>
      if (i <=? j)%nat && Less data i a then scan_up rounds' data a (S i) j else i
  end.

(** [for i <= j && !data.Less(j, a) { j-- }]; the index [j] is kept one
    higher, so that it can pass below [a+1]. *)
Fixpoint scan_down (rounds : nat) (data : list A) (a i j1 : nat) : nat :=
  match rounds with
  | O => j1
  | S rounds' =>
      match j1 with
      | O => j1
      | S j =>
          if (i <=? j)%nat && negb (Less data j a) then scan_down rounds' data a i j else j1
      end
  end.

(** The closing loop of [partition_func]; [j1] is [j+1]. *)
Fixpoint partition_loop (rounds : nat) (data : list A) (a i j1 : nat) : list A * nat :=
  match rounds with
  | O => (data, j1)
  | S rounds' =>
      let i := scan_up (S j1) data a i (j1 - 1) in
      let j1 := scan_down (S j1) data a i j1 in
      if (j1 <=? i)%nat then (data, j1)                 (* i > j *)
      else partition_loop rounds' (Swap data i (j1 - 1)) a (S i) (j1 - 1)
  end.

(** [partition_func(data, a, b, pivot)]: the new place of the pivot and
    whether the slice was already partitioned. *)
Definition partition (data : list A) (a b pivot : nat) : list A * nat * bool :=
  let data := Swap data a pivot in
  let i := (a + 1)%nat in
  let j1 := b in                                   (* j = b - 1 *)
  let i := scan_up b data a i (j1 - 1) in
  let j1 := scan_down b data a i j1 in
  if (j1 <=? i)%nat then
    (Swap data (j1 - 1) a, (j1 - 1)%nat, true)
  else
    let data := Swap data i (j1 - 1) in
    let '(data, j1) := partition_loop b data a (S i) (j1 - 1) in
    (Swap data (j1 - 1) a, (j1 - 1)%nat, false).

(** [for i <= j && !data.Less(a, i) { i++ }] and
    [for i <= j && data.Less(a, j) { j-- }] of [partitionEqual_func] *)
Fixpoint scan_up_equal (rounds : nat) (data : list A) (a i j : nat) : nat :=
  match rounds with
  | O => i
  | S rounds' =>
      if (i <=? j)%nat && negb (Less data a i) then scan_up_equal rounds' data a (S i) j else i
  end.

Fixpoint scan_down_greater (rounds : nat) (data : list A) (a i j1 : nat) : nat :=
  match rounds with
  | O => j1
  | S rounds' =>
      match j1 with
      | O => j1
      | S j =>
          if (i <=? j)%nat && Less data a j then scan_down_greater rounds' data a i j else j1
      end
  end.

Fixpoint partitionEqual_loop (rounds : nat) (data : list A) (a i j1 : nat) : list A * nat :=
  match rounds with
  | O => (data, i)
  | S rounds' =>
      let i := scan_up_equal (S j1) data a i (j1 - 1) in
      let j1 := scan_down_greater (S j1) data a i j1 in
      if (j1 <=? i)%nat then (data, i)
      else partitionEqual_loop rounds' (Swap data i (j1 - 1)) a (S i) (j1 - 1)
  end.

(** [partitionEqual_func(data, a, b, pivot)] *)
Definition partitionEqual (data : list A) (a b pivot : nat) : list A * nat :=
  let data := Swap data a pivot in
  partitionEqual_loop (S b) data a (a + 1) b.

(** [for i < b && !data.Less(i, i-1) { i++ }] *)
Fixpoint run_end (rounds : nat) (data : list A) (i b : nat) : nat :=
  match rounds with
  | O => i
  | S rounds' =>
      if (i <? b)%nat && negb (Less data i (i - 1)) then run_end rounds' data (S i) b else i
  end.

(** [for j := i - 1; j >= 1; j-- { if !data.Less(j, j-1) { break }; data.Swap(j, j-1) }] *)
Fixpoint shift_left (j : nat) (data : list A) : list A :=
  match j with
  | O => data
  | S j' => if negb (Less data j j') then data else shift_left j' (Swap data j j')
  end.

(** [for j := i + 1; j < b; j++ { if !data.Less(j, j-1) { break }; data.Swap(j, j-1) }] *)
Fixpoint shift_right (rounds : nat) (data : list A) (j b : nat) : list A :=
  match rounds with
  | O => data
  | S rounds' =>
      if (j <? b)%nat then
        if negb (Less data j (j - 1)) then data
        else shift_right rounds' (Swap data j (j - 1)) (S j) b
      else data
  end.

(** [partialInsertionSort_func(data, a, b)]: at most [maxSteps] = 5 rounds,
    and no shifting on fewer than [shortestShifting] = 50 elements. *)
Fixpoint partial_loop (steps : nat) (data : list A) (a i b : nat) : list A * bool :=
  match steps with
  | O => (data, false)
  | S steps' =>
      let i := run_end b data i b in
      if (i =? b)%nat then (data, true)
      else if (b - a <? 50)%nat then (data, false)
      else
        let data := Swap data i (i - 1) in
        let data := if (2 <=? i - a)%nat then shift_left (i - 1) data else data in
        let data := if (2 <=? b - i)%nat then shift_right b data (i + 1) b else data in
        partial_loop steps' data a i b
  end.

Definition partialInsertionSort (data : list A) (a b : nat) : list A * bool :=
  partial_loop 5 data a (a + 1) b.

(** [xorshift.Next] on a 64-bit word, [bits.Len] and [nextPowerOfTwo] *)
Definition xorshift_Next (r : Z) : Z :=
  let r := Z.lxor r (Z.shiftl r 13 mod 2 ^ 64) in
  let r := Z.lxor r (Z.shiftr r 7) in
  Z.lxor r (Z.shiftl r 17 mod 2 ^ 64).

Definition bits_Len (x : nat) : nat :=
  match x with
  | O => O
  | S _ => Z.to_nat (Z.log2 (Z.of_nat x) + 1)
  end.

Definition nextPowerOfTwo (length : nat) : Z := 2 ^ Z.of_nat (bits_Len length).

(** [breakPatterns_func(data, a, b)] *)
Fixpoint breakPatterns_loop (n i : nat) (random : Z) (data : list A)
    (a idx length : nat) : list A :=
  match n with
  | O => data
  | S n' =>
      let random := xorshift_Next random in
      let other := Z.to_nat (Z.land random (nextPowerOfTwo length - 1)) in
      let other := if (length <=? other)%nat then (other - length)%nat else other in
      breakPatterns_loop n' (S i) random (Swap data (idx + i) (a + other)) a idx length
  end.

Definition breakPatterns (data : list A) (a b : nat) : list A :=
  let length := (b - a)%nat in
  if (8 <=? length)%nat then
    breakPatterns_loop 3 0 (Z.of_nat length) data a (a + length / 4 * 2 - 1) length
  else data.

(** The hint [choosePivot_func] gives with the pivot. *)
Inductive sortedHint : Type := unknownHint | increasingHint | decreasingHint.

(** [order2_func]: the two indices in the order of their elements, and the
    count of swaps. *)
Definition order2 (data : list A) (a b swaps : nat) : nat * nat * nat :=
  if Less data b a then (b, a, S swaps) else (a, b, swaps).

(** [median_func] *)
Definition median (data : list A) (a b c swaps : nat) : nat * nat :=
  let '(a, b, swaps) := order2 data a b swaps in
  let '(b, c, swaps) := order2 data b c swaps in
  let '(a, b, swaps) := order2 data a b swaps in
  (b, swaps).

(** [medianAdjacent_func] *)
Definition medianAdjacent (data : list A) (a swaps : nat) : nat * nat :=
  median data (a - 1) a (a + 1) swaps.

(** [choosePivot_func(data, a, b)] *)
Definition choosePivot (data : list A) (a b : nat) : nat * sortedHint :=
  let l := (b - a)%nat in
  let swaps := 0%nat in
  let i := (a + l / 4 * 1)%nat in
  let j := (a + l / 4 * 2)%nat in
  let k := (a + l / 4 * 3)%nat in
  let '(j, swaps) :=
    if (8 <=? l)%nat then
      let '(i, j, k, swaps) :=
        if (50 <=? l)%nat then
          let '(i, swaps) := medianAdjacent data i swaps in
          let '(j, swaps) := medianAdjacent data j swaps in
          let '(k, swaps) := medianAdjacent data k swaps in
          (i, j, k, swaps)
        else (i, j, k, swaps) in
      median data i j k swaps
    else (j, swaps) in
  if (swaps =? 0)%nat then (j, increasingHint)
  else if (swaps =? 12)%nat then (j, decreasingHint)
  else (j, unknownHint).

(** [reverseRange_func(data, a, b)]; [j1] is [j+1]. *)
Fixpoint reverse_loop (rounds : nat) (data : list A) (i j1 : nat) : list A :=
  match rounds with
  | O => data
  | S rounds' =>
      if (S i <? j1)%nat                               (* i < j *)
      then reverse_loop rounds' (Swap data i (j1 - 1)) (S i) (j1 - 1)
      else data
  end.

Definition reverseRange (data : list A) (a b : nat) : list A :=
  reverse_loop (b - a) data a b.

(** [pdqsort_func(data, a, b, limit)]: the loop with its two flags; a
    recursive call starts with both flags set. *)
Fixpoint pdqsort_loop (rounds : nat) (data : list A) (a b limit : nat)
    (wasBalanced wasPartitioned : bool) : list A :=
  match rounds with
  | O => data
  | S rounds' =>
      let length := (b - a)%nat in
      if (length <=? 12)%nat then insertionSort data a b
      else if (limit =? 0)%nat then heapSort data a b
      else
        let '(data, limit) :=
          if negb wasBalanced then (breakPatterns data a b, (limit - 1)%nat)
          else (data, limit) in
        let '(pivot, hint) := choosePivot data a b in
        let '(data, pivot, hint) :=
          match hint with
          | decreasingHint =>
              (reverseRange data a b, (b - 1 - (pivot - a))%nat, increasingHint)
          | _ => (data, pivot, hint)
          end in
        let '(data, sorted) :=
          match hint with
          | increasingHint =>
              if wasBalanced && wasPartitioned then partialInsertionSort data a b
              else (data, false)
          | _ => (data, false)
          end in
        if sorted then data
        else if (0 <? a)%nat && negb (Less data (a - 1) pivot) then
          let '(data, mid) := partitionEqual data a b pivot in
          pdqsort_loop rounds' data mid b limit wasBalanced wasPartitioned
        else
          let '(data, mid, alreadyPartitioned) := partition data a b pivot in
          let wasPartitioned := alreadyPartitioned in
          let leftLen := (mid - a)%nat in
          let rightLen := (b - mid)%nat in
          let balanceThreshold := (length / 8)%nat in
          if (leftLen <? rightLen)%nat then
            let wasBalanced := (balanceThreshold <=? leftLen)%nat in
            let data := pdqsort_loop rounds' data a mid limit true true in
            pdqsort_loop rounds' data (mid + 1) b limit wasBalanced wasPartitioned
          else
            let wasBalanced := (balanceThreshold <=? rightLen)%nat in
            let data := pdqsort_loop rounds' data (mid + 1) b limit true true in
            pdqsort_loop rounds' data a mid limit wasBalanced wasPartitioned
  end.

(** [sort.Slice(x, less)] *)
Definition Slice (x : list A) : list A :=
  let length := List.length x in
  let limit := bits_Len length in
  pdqsort_loop (S length) x 0 length limit true true.

End Sort.

End pdqsort.

(** ** Sample data *)

(** A provider that answers every site with the same departures. *)
Definition fetch_fixed (l : list Departure) : string -> outcome Response :=
  fun _ => Ok (mkResponse (Slice l)).

(** A provider that cannot be reached. *)
Definition fetch_down : string -> outcome Response :=
  fun _ => Err (errorString "error making request: connection refused").

Definition at_time (s : string) : CustomTime :=
  match UnmarshalJSON (quoted s) with
  | Ok ct => ct
  | _ => mkCustomTime (time.mkTime 0 0)
  end.

Definition departure (line : Z) (dest dir sched expect : string) : Departure :=
  mkDeparture dest dir (at_time sched) (at_time expect) (mkLine line (itoa line)).

(** [GET path?k1=v1&k2=v2...] *)
Definition GET (path : string) (query : list (string * string)) : http.Request :=
  http.mkRequest "GET" path (list_to_map (map (fun kv => (kv.1, [kv.2])) query)).

(** A growth policy for [append]: at least double the capacity. *)
Definition grow_double (oldcap needed : nat) : nat := Nat.max needed (2 * oldcap).

(** Seven departures; the first two are expected at the same time. *)
Definition seven : list Departure :=
  [ departure 1 "A" "North" "2024-01-15T09:05:00" "2024-01-15T09:05:00";
    departure 2 "B" "North" "2024-01-15T09:05:00" "2024-01-15T09:05:00";
    departure 3 "C" "North" "2024-01-15T09:00:00" "2024-01-15T09:00:00";
    departure 4 "D" "North" "2024-01-15T09:00:00" "2024-01-15T09:00:00";
    departure 5 "E" "North" "2024-01-15T09:00:00" "2024-01-15T09:00:00";
    departure 6 "F" "North" "2024-01-15T09:00:00" "2024-01-15T09:00:00";
    departure 7 "G" "North" "2024-01-15T09:02:00" "2024-01-15T09:02:00" ].

(** Thirteen departures, one more than [sort.Slice] sorts by insertion; the
    first two are expected five minutes after the others. *)
Definition thirteen : list Departure :=
  [ departure 1 "A" "North" "2024-01-15T09:05:00" "2024-01-15T09:05:00";
    departure 2 "B" "North" "2024-01-15T09:05:00" "2024-01-15T09:05:00";
    departure 3 "C" "North" "2024-01-15T09:00:00" "2024-01-15T09:00:00";
    departure 4 "D" "North" "2024-01-15T09:00:00" "2024-01-15T09:00:00";
    departure 5 "E" "North" "2024-01-15T09:00:00" "2024-01-15T09:00:00";
    departure 6 "F" "North" "2024-01-15T09:00:00" "2024-01-15T09:00:00";
    departure 7 "G" "North" "2024-01-15T09:00:00" "2024-01-15T09:00:00";
    departure 8 "H" "North" "2024-01-15T09:00:00" "2024-01-15T09:00:00";
    departure 9 "I" "North" "2024-01-15T09:00:00" "2024-01-15T09:00:00";
    departure 10 "J" "North" "2024-01-15T09:00:00" "2024-01-15T09:00:00";
    departure 11 "K" "North" "2024-01-15T09:00:00" "2024-01-15T09:00:00";
    departure 12 "L" "North" "2024-01-15T09:00:00" "2024-01-15T09:00:00";
    departure 13 "M" "North" "2024-01-15T09:00:00" "2024-01-15T09:00:00" ].

(** ** Notions of the further properties *)

(** A decoded time without its fraction of a second. *)
Definition whole_second (ct : CustomTime) : CustomTime :=
  mkCustomTime (time.mkTime (time.sec (Time ct)) 0).

(** The head of the text report for a site. *)
Definition report_head (siteID : string) : string :=
  "Upcoming Departures for site ID " +:+ siteID
    +:+ " (sorted by expected departure time):" +:+ nl +:+ divider +:+ nl.

(** The range of a 64-bit [int]. *)
Definition is_int (n : Z) : Prop := - 2 ^ 63 <= n <= 2 ^ 63 - 1.

(** * Proofs *)

(** ** The calendar: from a date to a day count and back *)

Ltac zdm := Z.div_mod_to_equations; lia.

Module time_facts.
Import time.

Lemma isLeap_spec y :
  isLeap y = true <-> (y mod 4 = 0 /\ (y mod 100 <> 0 \/ y mod 400 = 0)).
Proof.
  unfold isLeap.
  rewrite Bool.andb_true_iff, Bool.orb_true_iff, Bool.negb_true_iff, !Z.eqb_eq, Z.eqb_neq.
  tauto.
Qed.

(** A year, cut into its cycles of 400, 100, 4 and 1 years from year 1. *)
Lemma year_cycles y :
  exists a b c e,
    y - 1 = 400 * a + 100 * b + 4 * c + e /\
    0 <= b < 4 /\ 0 <= c < 25 /\ 0 <= e < 4 /\
    daysSinceEpoch y = 146097 * a + 36524 * b + 1461 * c + 365 * e /\
    (isLeap y = true <-> e = 3 /\ (c <> 24 \/ b = 3)).
Proof.
  set (Y := y - 1).
  set (a := Y / 400). set (r1 := Y - 400 * a).
  set (b := r1 / 100). set (r2 := r1 - 100 * b).
  set (c := r2 / 4). set (e := r2 - 4 * c).
  assert (Hr1 : 0 <= r1 < 400) by (subst r1 a; zdm).
  assert (Hb : 0 <= b < 4) by (subst b; zdm).
  assert (Hr2 : 0 <= r2 < 100) by (subst r2 b; zdm).
  assert (Hc : 0 <= c < 25) by (subst c; zdm).
  assert (He : 0 <= e < 4) by (subst e c; zdm).
  exists a, b, c, e.
  assert (HY : Y = 400 * a + 100 * b + 4 * c + e) by (subst e r2 r1; lia).
  assert (Hy : y = 400 * a + 100 * b + 4 * c + e + 1) by lia.
  split; [exact HY|]. do 3 (split; [lia|]). split.
  - unfold daysSinceEpoch. fold Y. reflexivity.
  - clearbody a b c e. clear HY r1 r2 Hr1 Hr2. subst y. clear Y.
    rewrite isLeap_spec. split.
    + intros [H4 H100]. split; [zdm|].
      destruct H100 as [H100|H400]; [left|right]; zdm.
    + intros [H3 Hcb]. split; [zdm|].
      destruct (Z.eq_dec c 24) as [Ec|Ec]; [right|left]; zdm.
Qed.

Lemma div_cycle k n r : 0 < k -> 0 <= r < k -> (k * n + r) / k = n.
Proof. intros. symmetry. apply Z.div_unique with r; lia. Qed.

Lemma absYear_daysSinceEpoch y yd :
  0 <= yd < (if isLeap y then 366 else 365) ->
  absYear (daysSinceEpoch y + yd) = (y, yd).
Proof.
  intros Hyd.
  destruct (year_cycles y) as (a & b & c & e & HY & Hb & Hc & He & HD & HL).
  assert (Hyd' : 0 <= yd < 366 /\ (yd = 365 -> e = 3 /\ (c <> 24 \/ b = 3))).
  { destruct (isLeap y); [split; [lia|intros _; apply HL; reflexivity]|lia]. }
  clear HL Hyd. destruct Hyd' as [Hyd HL].
  unfold absYear. rewrite HD. clear HD.
  change daysPer400Years with 146097. change daysPer100Years with 36524.
  change daysPer4Years with 1461.
  cbv zeta.
  replace (146097 * a + 36524 * b + 1461 * c + 365 * e + yd)
    with (146097 * a + (36524 * b + 1461 * c + 365 * e + yd)) by ring.
  rewrite (div_cycle 146097 a) by lia.
  replace (146097 * a + (36524 * b + 1461 * c + 365 * e + yd) - 146097 * a)
    with (36524 * b + 1461 * c + 365 * e + yd) by ring.
  set (d1 := 36524 * b + 1461 * c + 365 * e + yd).
  assert (Hn2 : d1 / 36524 - d1 / 36524 / 4 = b).
  { destruct (Z.eq_dec yd 365) as [E|E].
    - destruct (Z.eq_dec c 24) as [Ec|Ec].
      + assert (b = 3 /\ e = 3) as [-> ->] by lia. subst d1 c yd. reflexivity.
      + subst d1. replace (36524 * b + 1461 * c + 365 * e + yd)
          with (36524 * b + (1461 * c + 365 * e + yd)) by ring.
        rewrite div_cycle by lia. rewrite Z.div_small by lia. lia.
    - subst d1. replace (36524 * b + 1461 * c + 365 * e + yd)
          with (36524 * b + (1461 * c + 365 * e + yd)) by ring.
      rewrite div_cycle by lia. rewrite Z.div_small by lia. lia. }
  rewrite Hn2.
  replace (d1 - 36524 * b) with (1461 * c + (365 * e + yd)) by (subst d1; ring).
  rewrite (div_cycle 1461 c) by lia.
  replace (1461 * c + (365 * e + yd) - 1461 * c) with (365 * e + yd) by ring.
  assert (Hn4 : (365 * e + yd) / 365 - (365 * e + yd) / 365 / 4 = e).
  { destruct (Z.eq_dec yd 365) as [E|E].
    - assert (e = 3) as -> by lia. subst yd. reflexivity.
    - rewrite div_cycle by lia. rewrite Z.div_small by lia. lia. }
  rewrite Hn4. f_equal; lia.
Qed.


Ltac month_cases m :=
  let H := fresh in
  assert (H : m = 1 \/ m = 2 \/ m = 3 \/ m = 4 \/ m = 5 \/ m = 6 \/ m = 7 \/
              m = 8 \/ m = 9 \/ m = 10 \/ m = 11 \/ m = 12) by lia;
  repeat (destruct H as [->|H]); [..|subst m].

Ltac day_cases d :=
  let H := fresh in
  assert (H : d = 1 \/ d = 2 \/ d = 3 \/ d = 4 \/ d = 5 \/ d = 6 \/ d = 7 \/
              d = 8 \/ d = 9 \/ d = 10 \/ d = 11 \/ d = 12 \/ d = 13 \/ d = 14 \/
              d = 15 \/ d = 16 \/ d = 17 \/ d = 18 \/ d = 19 \/ d = 20 \/ d = 21 \/
              d = 22 \/ d = 23 \/ d = 24 \/ d = 25 \/ d = 26 \/ d = 27 \/ d = 28 \/
              d = 29 \/ d = 30 \/ d = 31) by lia;
  repeat (destruct H as [->|H]); [..|subst d].

Lemma daysIn_le_31 leap m : 1 <= m <= 12 -> 28 <= daysIn_leap leap m <= 31.
Proof. intros Hm. month_cases m; destruct leap; vm_compute; split; discriminate. Qed.

Lemma monthDay_yday_of leap m d :
  1 <= m <= 12 -> 1 <= d <= daysIn_leap leap m ->
  monthDay leap (yday_of leap m d) = (m, d) /\
  0 <= yday_of leap m d < (if leap then 366 else 365).
Proof.
  intros Hm Hd.
  pose proof (daysIn_le_31 leap m Hm) as H31.
  day_cases d; month_cases m; destruct leap;
    first [ exfalso; vm_compute in Hd; destruct Hd as [_ Hd]; apply Hd; reflexivity
          | vm_compute; repeat split; discriminate ].
Qed.

Lemma date_Date y m d h mi s ns :
  1 <= m <= 12 -> 1 <= d <= daysIn m y ->
  0 <= h < 24 -> 0 <= mi < 60 -> 0 <= s < 60 ->
  date (Date y m d h mi s ns) = (y, m, d) /\ clock (Date y m d h mi s ns) = (h, mi, s).
Proof.
  intros Hm Hd Hh Hmi Hs.
  change (daysIn m y) with (daysIn_leap (isLeap y) m) in Hd.
  destruct (monthDay_yday_of (isLeap y) m d Hm Hd) as [Hmd Hyd].
  unfold date, clock, Date. cbn [sec].
  set (D := daysSinceEpoch y + daysBefore (m - 1)).
  set (D' := (if isLeap y && (3 <=? m) then D + 1 else D) + (d - 1)).
  assert (HD' : D' = daysSinceEpoch y + yday_of (isLeap y) m d).
  { subst D' D. unfold yday_of. destruct (isLeap y && (3 <=? m)); lia. }
  change secondsPerDay with 86400. change secondsPerHour with 3600.
  change secondsPerMinute with 60.
  set (r := h * 3600 + mi * 60 + s).
  assert (Hr : 0 <= r < 86400) by (subst r; lia).
  replace (D' * 86400 + h * 3600 + mi * 60 + s) with (86400 * D' + r) by (subst r; ring).
  assert (Hdiv : (86400 * D' + r) / 86400 = D') by (apply div_cycle; lia).
  assert (Hmod : (86400 * D' + r) mod 86400 = r).
  { symmetry. apply Z.mod_unique with D'; lia. }
  rewrite Hdiv, Hmod, HD'. rewrite absYear_daysSinceEpoch by exact Hyd.
  rewrite Hmd. split; [reflexivity|].
  assert (Hh' : r / 3600 = h).
  { symmetry. apply Z.div_unique with (mi * 60 + s); subst r; lia. }
  rewrite Hh'.
  assert (Hm' : (r - h * 3600) / 60 = mi).
  { symmetry. apply Z.div_unique with s; subst r; lia. }
  rewrite Hm'. subst r; repeat f_equal; lia.
Qed.

End time_facts.
Import time_facts.

(** ** Digits and strings *)

Ltac ascii_cases c :=
  destruct c as [[] [] [] [] [] [] [] []]; try discriminate; try reflexivity.

Lemma digit_char_val c : isDigit c = true -> digit_char (digit_val c) = c.
Proof. ascii_cases c. Qed.

Lemma digit_val_bound c : isDigit c = true -> 0 <= digit_val c <= 9.
Proof. ascii_cases c; intros _; vm_compute; split; discriminate. Qed.

Lemma isDigit_htmlSafe c : isDigit c = true -> json.htmlSafe (Z.of_nat (nat_of_ascii c)) = true.
Proof. ascii_cases c. Qed.

(** A byte of [htmlSafeSet] is copied. *)
Lemma escape_loop_plain c rest :
  json.htmlSafe (Z.of_nat (nat_of_ascii c)) = true ->
  json.escape_loop (String c rest) 0 true = String c (json.escape_loop rest 0 true).
Proof.
  intros H. cbn [json.escape_loop]. unfold json.escape_byte. rewrite H.
  unfold json.htmlSafe in H. apply andb_true_iff in H as [H _].
  apply andb_true_iff in H as [_ H]. unfold utf8.RuneSelf. rewrite H. reflexivity.
Qed.

Lemma appendInt_2 n :
  0 <= n < 100 ->
  appendInt n 2 = String (digit_char (n / 10)) (String (digit_char (n mod 10)) EmptyString).
Proof.
  intros Hn. unfold appendInt, utoa.
  replace (n <? 0) with false by (symmetry; apply Z.ltb_ge; lia).
  rewrite Z.abs_eq by lia. cbn [utoa_fuel].
  destruct (n / 10 =? 0) eqn:E.
  - apply Z.eqb_eq in E. rewrite E. reflexivity.
  - replace (n / 10 / 10 =? 0) with true by (symmetry; apply Z.eqb_eq; zdm).
    rewrite (Z.mod_small (n / 10)) by zdm. reflexivity.
Qed.

Lemma appendInt_4 n :
  0 <= n < 10000 ->
  appendInt n 4 =
    String (digit_char (n / 1000)) (String (digit_char (n / 100 mod 10))
      (String (digit_char (n / 10 mod 10)) (String (digit_char (n mod 10)) EmptyString))).
Proof.
  intros Hn. unfold appendInt, utoa.
  replace (n <? 0) with false by (symmetry; apply Z.ltb_ge; lia).
  rewrite Z.abs_eq by lia. cbn [utoa_fuel].
  assert (H100 : n / 10 / 10 = n / 100) by (rewrite Z.div_div by lia; reflexivity).
  assert (H1000 : n / 100 / 10 = n / 1000) by (rewrite Z.div_div by lia; reflexivity).
  rewrite !H100, !H1000.
  destruct (n / 10 =? 0) eqn:E1.
  { apply Z.eqb_eq in E1.
    replace (n / 1000) with 0 by zdm. replace (n / 100) with 0 by zdm.
    rewrite E1. reflexivity. }
  destruct (n / 100 =? 0) eqn:E2.
  { apply Z.eqb_eq in E2.
    replace (n / 1000) with 0 by zdm. rewrite E2. reflexivity. }
  destruct (n / 1000 =? 0) eqn:E3.
  { apply Z.eqb_eq in E3. rewrite E3. reflexivity. }
  replace (n / 1000 / 10 =? 0) with true by (symmetry; apply Z.eqb_eq; zdm).
  rewrite (Z.mod_small (n / 1000)) by zdm. reflexivity.
Qed.

Lemma substring_all s t : substring 0 (String.length s) (s +:+ t) = s.
Proof.
  induction s as [|c s IH]; [destruct t; reflexivity|].
  change (String c (substring 0 (String.length s) (s +:+ t)) = String c s).
  f_equal. exact IH.
Qed.

Lemma length_snoc s c : String.length (s +:+ String c EmptyString) = S (String.length s).
Proof.
  induction s as [|a s IH]; [reflexivity|].
  change (S (String.length (s +:+ String c EmptyString)) = S (S (String.length s))).
  f_equal. exact IH.
Qed.

Lemma str_slice_quoted s : str_slice (quoted s) 1 (len (quoted s) - 1) = Ok s.
Proof.
  unfold str_slice, quoted, len. cbn [String.length]. rewrite length_snoc.
  replace (Z.of_nat (S (S (String.length s))) - 1) with (Z.of_nat (String.length s) + 1) by lia.
  replace (_ && _ && _) with true.
  2:{ symmetry. rewrite !andb_true_iff, !Z.leb_le. lia. }
  replace (Z.of_nat (String.length s) + 1 - 1) with (Z.of_nat (String.length s)) by lia.
  rewrite Nat2Z.id. change (Z.to_nat 1) with 1%nat. cbn [substring].
  f_equal. apply substring_all.
Qed.

(** The digits of a string in the pattern. *)
Lemma in_pattern_inv s :
  in_pattern s = true ->
  exists y1 y2 y3 y4 m1 m2 d1 d2 h1 h2 n1 n2 s1 s2,
    s = String y1 (String y2 (String y3 (String y4 (String "-"
         (String m1 (String m2 (String "-"
         (String d1 (String d2 (String "T"
         (String h1 (String h2 (String ":"
         (String n1 (String n2 (String ":"
         (String s1 (String s2 EmptyString)))))))))))))))))) /\
    Forall (fun c => isDigit c = true) [y1; y2; y3; y4; m1; m2; d1; d2; h1; h2; n1; n2; s1; s2].
Proof.
  intros H. unfold in_pattern in H.
  do 19 (destruct s as [|? s]; [discriminate H|]).
  destruct s; [|discriminate H].
  rewrite !andb_true_iff in H.
  repeat match goal with H : _ /\ _ |- _ => destruct H end.
  repeat match goal with H : Ascii.eqb _ _ = true |- _ => apply Ascii.eqb_eq in H; subst end.
  do 14 eexists. split; [reflexivity|].
  repeat constructor; assumption.
Qed.

(** ** The time codec on the strings of the pattern *)

Ltac digits_true :=
  repeat match goal with
         | H : isDigit ?c = true |- context [isDigit ?c] => rewrite H
         end.

Ltac parse_step :=
  cbn [time.parse_chunks time.parse_chunk time.getyear time.getnum time.skip
       time.f_year time.f_month time.f_day time.f_hour time.f_min time.f_sec time.f_nsec
       time.fields0 Ascii.eqb Bool.eqb andb];
  digits_true.

Ltac bool_to_prop :=
  repeat match goal with
         | H : _ && _ = true |- _ => apply andb_true_iff in H; destruct H
         | H : _ || _ = false |- _ => apply orb_false_iff in H; destruct H
         | H : _ && _ = false |- _ => apply andb_false_iff in H
         | H : _ || _ = true |- _ => apply orb_true_iff in H
         | H : (_ <=? _) = true |- _ => apply Z.leb_le in H
         | H : (_ <=? _) = false |- _ => apply Z.leb_gt in H
         | H : (_ <? _) = true |- _ => apply Z.ltb_lt in H
         | H : (_ <? _) = false |- _ => apply Z.ltb_ge in H
         end.

Lemma Parse_pattern y1 y2 y3 y4 m1 m2 d1 d2 h1 h2 n1 n2 s1 s2 :
  Forall (fun c => isDigit c = true) [y1; y2; y3; y4; m1; m2; d1; d2; h1; h2; n1; n2; s1; s2] ->
  let Y := ((digit_val y1 * 10 + digit_val y2) * 10 + digit_val y3) * 10 + digit_val y4 in
  let M := digit_val m1 * 10 + digit_val m2 in
  let D := digit_val d1 * 10 + digit_val d2 in
  let h := digit_val h1 * 10 + digit_val h2 in
  let mi := digit_val n1 * 10 + digit_val n2 in
  let s := digit_val s1 * 10 + digit_val s2 in
  let value := String y1 (String y2 (String y3 (String y4 (String "-"
         (String m1 (String m2 (String "-"
         (String d1 (String d2 (String "T"
         (String h1 (String h2 (String ":"
         (String n1 (String n2 (String ":"
         (String s1 (String s2 EmptyString)))))))))))))))))) in
  if fields_ok Y M D h mi s
  then time.Parse layout_datetime value = Ok (time.Date Y M D h mi s 0)
  else exists e, time.Parse layout_datetime value = Err e.
Proof.
  intros HF Y M D h mi s value.
  repeat match goal with H : Forall _ (_ :: _) |- _ => inversion H; subst; clear H end.
  repeat match goal with H : Forall _ [] |- _ => clear H end.
  unfold time.Parse, layout_datetime, value; clear value.
  repeat match goal with
         | H : isDigit ?c = true |- _ =>
             lazymatch goal with
             | _ : 0 <= digit_val c <= 9 |- _ => fail
             | _ => pose proof (digit_val_bound c H)
             end
         end.
  destruct (fields_ok Y M D h mi s) eqn:F; unfold fields_ok in F; subst Y M D h mi s.
  all: repeat first
    [ progress parse_step
    | match goal with
      | |- context [if ?c then time.bad _ _ else _] =>
          destruct c eqn:?; [ bool_to_prop; try lia; eexists; reflexivity | ]
      end ].
  - reflexivity.
  - bool_to_prop. lia.
Qed.

Lemma two_digits a b :
  isDigit a = true -> isDigit b = true ->
  appendInt (digit_val a * 10 + digit_val b) 2 = String a (String b EmptyString).
Proof.
  intros Ha Hb.
  pose proof (digit_val_bound a Ha). pose proof (digit_val_bound b Hb).
  rewrite appendInt_2 by lia.
  replace ((digit_val a * 10 + digit_val b) / 10) with (digit_val a) by zdm.
  replace ((digit_val a * 10 + digit_val b) mod 10) with (digit_val b) by zdm.
  now rewrite !digit_char_val.
Qed.

Lemma four_digits a b c d :
  isDigit a = true -> isDigit b = true -> isDigit c = true -> isDigit d = true ->
  appendInt (((digit_val a * 10 + digit_val b) * 10 + digit_val c) * 10 + digit_val d) 4
  = String a (String b (String c (String d EmptyString))).
Proof.
  intros Ha Hb Hc Hd.
  pose proof (digit_val_bound a Ha). pose proof (digit_val_bound b Hb).
  pose proof (digit_val_bound c Hc). pose proof (digit_val_bound d Hd).
  set (n := ((digit_val a * 10 + digit_val b) * 10 + digit_val c) * 10 + digit_val d).
  rewrite appendInt_4 by (subst n; lia).
  replace (n / 1000) with (digit_val a) by (subst n; zdm).
  replace (n / 100 mod 10) with (digit_val b) by (subst n; zdm).
  replace (n / 10 mod 10) with (digit_val c) by (subst n; zdm).
  replace (n mod 10) with (digit_val d) by (subst n; zdm).
  now rewrite !digit_char_val.
Qed.

Lemma Format_pattern y1 y2 y3 y4 m1 m2 d1 d2 h1 h2 n1 n2 s1 s2 ns :
  Forall (fun c => isDigit c = true) [y1; y2; y3; y4; m1; m2; d1; d2; h1; h2; n1; n2; s1; s2] ->
  let Y := ((digit_val y1 * 10 + digit_val y2) * 10 + digit_val y3) * 10 + digit_val y4 in
  let M := digit_val m1 * 10 + digit_val m2 in
  let D := digit_val d1 * 10 + digit_val d2 in
  let h := digit_val h1 * 10 + digit_val h2 in
  let mi := digit_val n1 * 10 + digit_val n2 in
  let s := digit_val s1 * 10 + digit_val s2 in
  fields_ok Y M D h mi s = true ->
  time.Format (time.Date Y M D h mi s ns) layout_datetime =
    String y1 (String y2 (String y3 (String y4 (String "-"
         (String m1 (String m2 (String "-"
         (String d1 (String d2 (String "T"
         (String h1 (String h2 (String ":"
         (String n1 (String n2 (String ":"
         (String s1 (String s2 EmptyString)))))))))))))))))).
Proof.
  intros HF Y M D h mi s F.
  repeat match goal with H : Forall _ (_ :: _) |- _ => inversion H; subst; clear H end.
  repeat match goal with H : Forall _ [] |- _ => clear H end.
  repeat match goal with
         | H : isDigit ?c = true |- _ =>
             lazymatch goal with
             | _ : 0 <= digit_val c <= 9 |- _ => fail
             | _ => pose proof (digit_val_bound c H)
             end
         end.
  unfold fields_ok in F. bool_to_prop.
  destruct (date_Date Y M D h mi s ns) as [Hdate Hclock]; try (subst Y M D h mi s; lia).
  unfold time.Format, layout_datetime. cbn [map]. unfold time.format_chunk.
  rewrite Hdate, Hclock. subst Y M D h mi s.
  rewrite four_digits by assumption. rewrite !two_digits by assumption.
  reflexivity.
Qed.

Lemma Marshal_pattern y1 y2 y3 y4 m1 m2 d1 d2 h1 h2 n1 n2 s1 s2 :
  Forall (fun c => isDigit c = true) [y1; y2; y3; y4; m1; m2; d1; d2; h1; h2; n1; n2; s1; s2] ->
  let value := String y1 (String y2 (String y3 (String y4 (String "-"
         (String m1 (String m2 (String "-"
         (String d1 (String d2 (String "T"
         (String h1 (String h2 (String ":"
         (String n1 (String n2 (String ":"
         (String s1 (String s2 EmptyString)))))))))))))))))) in
  json.Marshal_string value = quoted value.
Proof.
  intros HF value.
  repeat match goal with H : Forall _ (_ :: _) |- _ => inversion H; subst; clear H end.
  unfold json.Marshal_string, quoted, value, json.escape.
  repeat (rewrite escape_loop_plain
            by first [reflexivity | apply isDigit_htmlSafe; assumption]).
  reflexivity.
Qed.

Lemma valid_timestamp_pattern y1 y2 y3 y4 m1 m2 d1 d2 h1 h2 n1 n2 s1 s2 :
  let Y := ((digit_val y1 * 10 + digit_val y2) * 10 + digit_val y3) * 10 + digit_val y4 in
  let M := digit_val m1 * 10 + digit_val m2 in
  let D := digit_val d1 * 10 + digit_val d2 in
  let h := digit_val h1 * 10 + digit_val h2 in
  let mi := digit_val n1 * 10 + digit_val n2 in
  let s := digit_val s1 * 10 + digit_val s2 in
  valid_timestamp
    (String y1 (String y2 (String y3 (String y4 (String "-"
         (String m1 (String m2 (String "-"
         (String d1 (String d2 (String "T"
         (String h1 (String h2 (String ":"
         (String n1 (String n2 (String ":"
         (String s1 (String s2 EmptyString)))))))))))))))))))
  = fields_ok Y M D h mi s.
Proof. reflexivity. Qed.

(** C1.  Round trip of the time codec.  For every string [s] in the
    pattern [YYYY-MM-DDTHH:MM:SS], decoding the quoted string never panics;
    it succeeds exactly when [s] names a calendar date and a time of day,
    and encoding the decoded value then gives the quoted string again. *)
Theorem codec_round_trip s :
  in_pattern s = true ->
  match UnmarshalJSON (quoted s) with
  | Ok ct => valid_timestamp s = true /\ MarshalJSON ct = Ok (quoted s)
  | Err _ => valid_timestamp s = false
  | Panic _ => False
  end.
Proof.
  intros Hp.
  destruct (in_pattern_inv s Hp)
    as (y1 & y2 & y3 & y4 & m1 & m2 & d1 & d2 & h1 & h2 & n1 & n2 & s1 & s2 & -> & HF).
  unfold UnmarshalJSON. rewrite str_slice_quoted. cbn [mbind outcome_bind].
  rewrite valid_timestamp_pattern.
  pose proof (Parse_pattern _ _ _ _ _ _ _ _ _ _ _ _ _ _ HF) as HP. cbv zeta in HP.
  pose proof (Format_pattern _ _ _ _ _ _ _ _ _ _ _ _ _ _ 0 HF) as HFm. cbv zeta in HFm.
  destruct (fields_ok _ _ _ _ _ _).
  - rewrite HP. split; [reflexivity|].
    unfold MarshalJSON. cbn [Time]. rewrite HFm by reflexivity.
    f_equal. apply (Marshal_pattern _ _ _ _ _ _ _ _ _ _ _ _ _ _ HF).
  - destruct HP as [e ->]. reflexivity.
Qed.

Lemma codec_round_trip_witness :
  in_pattern "2024-01-15T08:30:00" = true /\
  exists ct, UnmarshalJSON (quoted "2024-01-15T08:30:00") = Ok ct /\
             MarshalJSON ct = Ok (quoted "2024-01-15T08:30:00").
Proof.
  split; [reflexivity|].
  pose proof (codec_round_trip "2024-01-15T08:30:00" eq_refl) as H.
  destruct (UnmarshalJSON (quoted "2024-01-15T08:30:00")) as [ct| |]; [|discriminate H|destruct H].
  exists ct. split; [reflexivity|apply H].
Defined.

(** ** The time codec on other inputs *)

(** C2.  On an input shorter than two bytes [UnmarshalJSON] returns no
    error: the slice expression [s[1 : len(s)-1]] is out of range, and the
    call panics. *)
Theorem UnmarshalJSON_short_panics b :
  len b < 2 -> UnmarshalJSON b = Panic "slice bounds out of range".
Proof.
  intros Hb. unfold UnmarshalJSON, str_slice.
  replace ((0 <=? 1) && (1 <=? len b - 1) && (len b - 1 <=? len b)) with false; [reflexivity|].
  symmetry. apply andb_false_iff. left. apply andb_false_iff. right.
  apply Z.leb_gt. lia.
Qed.

Lemma UnmarshalJSON_short_panics_witness :
  len "5" < 2 /\ UnmarshalJSON "5" = Panic "slice bounds out of range".
Proof.
  split; [reflexivity|]. apply UnmarshalJSON_short_panics. reflexivity.
Defined.

Lemma str_slice_interior b :
  2 <= len b -> str_slice b 1 (len b - 1) = Ok (interior b).
Proof.
  intros Hb. unfold str_slice, interior, len in *.
  replace (_ && _ && _) with true by (symmetry; rewrite !andb_true_iff, !Z.leb_le; lia).
  do 2 f_equal. lia.
Qed.

(** C9.  [UnmarshalJSON] drops the first and the last byte of its input
    whatever they are: for every input of at least two bytes whose interior
    parses in the layout, decoding succeeds with the parsed time. *)
Theorem UnmarshalJSON_ignores_delimiters b t :
  2 <= len b ->
  time.Parse layout_datetime (interior b) = Ok t ->
  UnmarshalJSON b = Ok (mkCustomTime t).
Proof.
  intros Hb Ht. unfold UnmarshalJSON. rewrite str_slice_interior by exact Hb.
  cbn [mbind outcome_bind]. rewrite Ht. reflexivity.
Qed.

Lemma UnmarshalJSON_ignores_delimiters_witness :
  UnmarshalJSON "x2024-01-15T08:30:00y" = UnmarshalJSON (quoted "2024-01-15T08:30:00") /\
  UnmarshalJSON "x2024-01-15T08:30:00y" = Ok (mkCustomTime (time.mkTime 63840904200 0)).
Proof.
  assert (H : UnmarshalJSON "x2024-01-15T08:30:00y" = Ok (mkCustomTime (time.mkTime 63840904200 0))).
  { apply UnmarshalJSON_ignores_delimiters; [vm_compute; discriminate | vm_compute; reflexivity]. }
  split; [rewrite H; vm_compute; reflexivity | exact H].
Defined.

(** ** The filter *)

Lemma continues_kept lineID direction d :
  continues lineID direction d = negb (kept lineID direction d).
Proof.
  unfold continues, kept.
  destruct (String.eqb lineID ""); cbn [negb andb orb].
  - destruct (String.eqb direction ""); cbn [negb andb orb]; [reflexivity|].
    destruct (String.eqb (Direction d) direction); reflexivity.
  - destruct (strconv.Atoi lineID) as [id| |]; cbn [negb andb orb].
    + rewrite (Z.eqb_sym (ID (Line_ d)) id).
      destruct (id =? ID (Line_ d)); cbn [negb andb orb]; [|reflexivity].
      destruct (String.eqb direction ""); cbn [negb andb orb]; [reflexivity|].
      destruct (String.eqb (Direction d) direction); reflexivity.
    + reflexivity.
    + reflexivity.
Qed.

Lemma filter_loop_elems lineID direction departures acc :
  elems (fold_left
           (fun filtered d =>
              if continues lineID direction d then filtered else append filtered d)
           departures acc)
  = elems acc ++ List.filter (kept lineID direction) departures.
Proof.
  revert acc. induction departures as [|d ds IH]; intros acc; cbn [fold_left List.filter].
  - now rewrite app_nil_r.
  - rewrite IH, continues_kept. destruct (kept lineID direction d); cbn [negb].
    + unfold append. cbn [elems]. now rewrite <- app_assoc.
    + reflexivity.
Qed.

Lemma filterDepartures_elems departures lineID direction :
  elems (filterDepartures departures lineID direction)
  = List.filter (kept lineID direction) departures.
Proof. unfold filterDepartures. now rewrite filter_loop_elems. Qed.

(** C4.  [filterDepartures] keeps exactly the records [d] for which the
    line filter is empty or parses as the integer [d.Line.ID], and the
    direction filter is empty or equals [d.Direction] byte for byte; a
    non-empty line filter that does not parse leaves no record, and two
    empty filters leave every record. *)
Theorem filterDepartures_keeps_exactly departures lineID direction :
  elems (filterDepartures departures lineID direction)
    = List.filter (kept lineID direction) departures /\
  (forall d, kept lineID direction d = true <->
     (lineID = "" \/ strconv.Atoi lineID = Ok (ID (Line_ d))) /\
     (direction = "" \/ Direction d = direction)) /\
  (lineID <> "" -> (forall id, strconv.Atoi lineID <> Ok id) ->
     elems (filterDepartures departures lineID direction) = []) /\
  (elems (filterDepartures departures "" "") = departures).
Proof.
  split; [apply filterDepartures_elems|]. split; [|split].
  - intros d. unfold kept.
    rewrite andb_true_iff, !orb_true_iff, !String.eqb_eq.
    assert (HA : match strconv.Atoi lineID with Ok id => id =? ID (Line_ d) | _ => false end = true
                 <-> strconv.Atoi lineID = Ok (ID (Line_ d))).
    { destruct (strconv.Atoi lineID) as [id| |]; [|split; discriminate..].
      rewrite Z.eqb_eq. split; [intros ->; reflexivity|intros [= ->]; reflexivity]. }
    rewrite HA. reflexivity.
  - intros Hne Hbad. rewrite filterDepartures_elems.
    induction departures as [|d ds IH]; [reflexivity|]. cbn [List.filter].
    replace (kept lineID direction d) with false; [exact IH|].
    symmetry. unfold kept. apply String.eqb_neq in Hne. rewrite Hne.
    destruct (strconv.Atoi lineID) as [id| |] eqn:E; [|reflexivity..].
    exfalso. exact (Hbad id eq_refl).
  - rewrite filterDepartures_elems.
    induction departures as [|d ds IH]; [reflexivity|]. cbn [List.filter].
    change (kept "" "" d) with true. now rewrite IH.
Qed.

Lemma filterDepartures_keeps_exactly_witness :
  let d10 := departure 10 "Downtown" "North" "2024-01-15T08:00:00" "2024-01-15T08:05:00" in
  let d20 := departure 20 "Uptown" "South" "2024-01-15T08:10:00" "2024-01-15T08:10:00" in
  elems (filterDepartures [d20; d10; d20] "10" "") = [d10] /\
  elems (filterDepartures [d20; d10; d20] "" "South") = [d20; d20] /\
  elems (filterDepartures [d20; d10; d20] "abc" "") = [] /\
  elems (filterDepartures [d20; d10; d20] "" "") = [d20; d10; d20].
Proof.
  intros d10 d20.
  pose proof (filterDepartures_keeps_exactly [d20; d10; d20] "abc" "") as (_ & _ & Habc & Hall).
  split; [|split; [|split]].
  - rewrite (proj1 (filterDepartures_keeps_exactly [d20; d10; d20] "10" "")). reflexivity.
  - rewrite (proj1 (filterDepartures_keeps_exactly [d20; d10; d20] "" "South")). reflexivity.
  - apply Habc; [discriminate|]. intros id. vm_compute. discriminate.
  - exact Hall.
Defined.

Lemma filter_sublist {A} (f : A -> bool) (l : list A) : List.filter f l `sublist_of` l.
Proof.
  induction l as [|x l IH]; cbn [List.filter]; [constructor|].
  destruct (f x); [apply sublist_skip|apply sublist_cons]; exact IH.
Qed.

(** C10.  The output of [filterDepartures] is a subsequence of its input:
    the records that survive, in the order of the input; every output
    record occurs in the input, and there are no more than in the input. *)
Theorem filterDepartures_subsequence departures lineID direction :
  elems (filterDepartures departures lineID direction) `sublist_of` departures /\
  (forall d, In d (elems (filterDepartures departures lineID direction)) -> In d departures) /\
  (List.length (elems (filterDepartures departures lineID direction)) <= List.length departures)%nat.
Proof.
  rewrite filterDepartures_elems. split; [apply filter_sublist|]. split.
  - intros d Hd. apply List.filter_In in Hd. tauto.
  - apply sublist_length, filter_sublist.
Qed.

(** ** The handlers *)

Lemma filter_loop_nil lineID direction departures acc :
  let out := fold_left
           (fun filtered d =>
              if continues lineID direction d then filtered else append filtered d)
           departures acc in
  out = acc \/ exists d l, out = Slice (d :: l).
Proof.
  revert acc. induction departures as [|d ds IH]; intros acc; cbn [fold_left].
  - left. reflexivity.
  - destruct (continues lineID direction d); [apply IH|].
    right. destruct (IH (append acc d)) as [->|H]; [|exact H].
    unfold append. destruct (elems acc) as [|x l]; cbn [app]; eauto.
Qed.

Lemma filterDepartures_nil departures lineID direction :
  elems (filterDepartures departures lineID direction) = [] ->
  filterDepartures departures lineID direction = nilSlice.
Proof.
  intros H. unfold filterDepartures in *.
  destruct (filter_loop_nil lineID direction departures nilSlice) as [E|(d & l & E)];
    [exact E|]. rewrite E in H. discriminate H.
Qed.

Section Handlers.

Variable fetchDepartures : string -> outcome Response.
Variable sort_Slice : (Departure -> Departure -> bool) -> list Departure -> list Departure.

Lemma getDepartures_no_siteId r :
  http.Query r !! "siteId" = None ->
  getDepartures fetchDepartures sort_Slice r
  = Err (errorString "siteId query parameter is required").
Proof. intros H. unfold getDepartures, http.Get. rewrite H. reflexivity. Qed.

(** C5, amended.  A request to [/departures] or [/departures/json]
    without a [siteId] parameter is answered with status 500 and the
    plain-text body ["Error fetching departure data: siteId query
    parameter is required"], ended by a newline. *)
Theorem missing_siteId_response r :
  http.Query r !! "siteId" = None ->
  http.Path r = "/departures" \/ http.Path r = "/departures/json" ->
  exists w,
    serve fetchDepartures sort_Slice r = Ok w /\
    http.status w = Some 500 /\
    http.Header w !! "Content-Type" = Some "text/plain; charset=utf-8" /\
    http.body w = "Error fetching departure data: siteId query parameter is required" +:+ nl.
Proof.
  intros Hq [Hp|Hp]; unfold serve; rewrite Hp; cbn [String.eqb Ascii.eqb Bool.eqb];
    unfold handleDepartures, handleDeparturesJSON;
    rewrite (getDepartures_no_siteId r Hq); eexists; (split; [reflexivity|]);
    repeat split; reflexivity.
Qed.

(** C7.  When no record survives the filter, the JSON handler answers
    with the empty array [[]] (and the newline of the encoder), not with
    [null], and the text handler with the message that names the site
    identifier. *)
Theorem empty_result_rendering r response :
  http.Get (http.Query r) "siteId" <> "" ->
  fetchDepartures (http.Get (http.Query r) "siteId") = Ok response ->
  elems (filterDepartures (elems (Departures response))
           (http.Get (http.Query r) "lineId") (http.Get (http.Query r) "direction")) = [] ->
  (http.Path r = "/departures/json" ->
     serve fetchDepartures sort_Slice r
     = Ok (http.mkResponseWriter {[ "Content-Type" := "application/json" ]}
             (Some 200) ("[]" +:+ nl))) /\
  (http.Path r = "/departures" ->
     serve fetchDepartures sort_Slice r
     = Ok (http.mkResponseWriter ∅ (Some 200)
             ("No departures found matching the criteria for site ID: "
              +:+ http.Get (http.Query r) "siteId" +:+ nl))).
Proof.
  intros Hsite Hfetch Hnone.
  apply filterDepartures_nil in Hnone.
  assert (Hget : getDepartures fetchDepartures sort_Slice r
                 = Ok (nilSlice, http.Get (http.Query r) "siteId")).
  { unfold getDepartures. apply String.eqb_neq in Hsite. rewrite Hsite, Hfetch, Hnone.
    reflexivity. }
  split; intros Hp; unfold serve; rewrite Hp; cbn [String.eqb Ascii.eqb Bool.eqb].
  - unfold handleDeparturesJSON. rewrite Hget. reflexivity.
  - unfold handleDepartures. rewrite Hget. reflexivity.
Qed.

End Handlers.

Lemma missing_siteId_response_witness :
  exists w,
    serve fetch_down shellsort.sort (GET "/departures" [("lineId", "10")]) = Ok w /\
    http.status w = Some 500 /\
    http.Header w !! "Content-Type" = Some "text/plain; charset=utf-8" /\
    http.body w = "Error fetching departure data: siteId query parameter is required" +:+ nl.
Proof.
  apply missing_siteId_response; [vm_compute; reflexivity | left; reflexivity].
Defined.

(** C5 as stated fails: the body is not the bare message. *)
Lemma missing_siteId_body_is_prefixed :
  ~ (exists w,
       serve fetch_down shellsort.sort (GET "/departures" []) = Ok w /\
       http.status w = Some 500 /\
       http.body w = "siteId query parameter is required").
Proof.
  intros (w & Hw & _ & Hb). vm_compute in Hw. injection Hw as <-. discriminate Hb.
Qed.

Lemma empty_result_rendering_witness :
  serve (fetch_fixed [departure 10 "Downtown" "North" "2024-01-15T08:00:00" "2024-01-15T08:05:00"])
        shellsort.sort (GET "/departures/json" [("siteId", "9001"); ("lineId", "20")])
  = Ok (http.mkResponseWriter {[ "Content-Type" := "application/json" ]} (Some 200) ("[]" +:+ nl)) /\
  serve (fetch_fixed [departure 10 "Downtown" "North" "2024-01-15T08:00:00" "2024-01-15T08:05:00"])
        shellsort.sort (GET "/departures" [("siteId", "9001"); ("lineId", "20")])
  = Ok (http.mkResponseWriter ∅ (Some 200)
          ("No departures found matching the criteria for site ID: 9001" +:+ nl)).
Proof.
  pose proof (empty_result_rendering
    (fetch_fixed [departure 10 "Downtown" "North" "2024-01-15T08:00:00" "2024-01-15T08:05:00"])
    shellsort.sort) as H.
  split.
  - refine (proj1 (H (GET "/departures/json" [("siteId", "9001"); ("lineId", "20")]) _ _ _ _) _);
      try (vm_compute; reflexivity). vm_compute; discriminate.
  - refine (proj2 (H (GET "/departures" [("siteId", "9001"); ("lineId", "20")]) _ _ _ _) _);
      try (vm_compute; reflexivity). vm_compute; discriminate.
Defined.

(** ** The arithmetic of [float64] and the minutes of a duration *)

Module float64_facts.
Import float64.

















End float64_facts.




Module Minutes_facts.
Import float64 float64_facts.



Section Bounds.
Variables (D m k : Z).
Hypothesis HD : time.minDuration <= D <= time.maxDuration.
Hypothesis Hk : -1074 <= k <= 0.
Hypothesis Hm : Z.abs m < 2 ^ 53.
Hypothesis Hsum : Z.abs ((D ÷ time.Minute) * 2 ^ (- k) + m) < 2 ^ 53.

Let r := Z.rem D time.Minute.





End Bounds.






End Minutes_facts.



(** ** The delay line of the text report *)



Lemma clock_minute t :
  let '(h, m, _) := time.clock t in
  h = (time.sec t / 60) mod 1440 / 60 /\ m = (time.sec t / 60) mod 60.
Proof.
  unfold time.clock, time.secondsPerDay, time.secondsPerHour, time.secondsPerMinute.
  split; zdm.
Qed.

Lemma Format_clock t :
  time.Format t layout_clock =
    appendInt ((time.sec t / 60) mod 1440 / 60) 2 +:+ ":" +:+
    appendInt ((time.sec t / 60) mod 60) 2.
Proof.
  unfold time.Format, layout_clock. cbn [map]. unfold time.format_chunk.
  pose proof (clock_minute t) as H.
  destruct (time.date t) as [[y mo] dd]. destruct (time.clock t) as [[h m] s].
  destruct H as [-> ->]. cbn [String.concat]. reflexivity.
Qed.





(** The sum of [Minutes] can round up to the next whole minute: one
    nanosecond under 527042 minutes is printed as 527042 minutes. *)
Lemma delay_may_round_up :
  let d := departure 1 "Downtown" "North" "2024-01-01T00:00:00" "2025-01-01T00:01:59.999999999" in
  delay d = 527042 * time.Minute - 1 /\
  Z.quot (delay d) time.Minute = 527041 /\
  delay_minutes d = 527042 /\
  print_block d =
    "Line 1 (ID: 1) to Downtown" +:+ nl +:+ "  Direction: North" +:+ nl +:+
    "  Scheduled: 00:00" +:+ nl +:+ "  Expected:  00:01" +:+ nl +:+
    "  Delay:     527042 minutes" +:+ nl +:+ divider +:+ nl.
Proof. vm_compute. repeat split. Qed.

(** ** The filter on a store of backing arrays *)

Module mem_facts.
Abbreviation filter_values := filterDepartures.
Import mem.


Lemma view_length h s : valid h s -> List.length (view h s) = length s.
Proof.
  unfold valid, view. destruct (ptr s) as [l|].
  - intros (arr & -> & Hlen & Hcap). cbn [default from_option id].
    rewrite length_take, length_drop. lia.
  - intros [-> _]. reflexivity.
Qed.

Lemma view_lookup h s i arr l :
  ptr s = Some l -> h !! l = Some arr -> (i < length s)%nat ->
  view h s !! i = arr !! (off s + i)%nat.
Proof.
  intros Hp Hl Hi. unfold view. rewrite Hp, Hl. cbn [default from_option id].
  rewrite lookup_take_lt by exact Hi. apply lookup_drop.
Qed.

Section Append.

Variable growcap : nat -> nat -> nat.
Hypothesis growcap_enough : forall oldcap needed, (needed <= growcap oldcap needed)%nat.

Lemma append_inv h0 h s x :
  inv h0 h s ->
  inv h0 (append growcap h s x).1 (append growcap h s x).2 /\
  view (append growcap h s x).1 (append growcap h s x).2 = view h s ++ [x].
Proof.
  intros [Hframe Hvalid Hfresh].
  pose proof (view_length h s Hvalid) as Hvl.
  unfold append. destruct (ptr s) as [l|] eqn:Hp.
  - pose proof Hvalid as Hv. unfold valid in Hv. rewrite Hp in Hv.
    destruct Hv as (arr & Harr & Hlen & Hcap).
    destruct (decide (length s < cap s)%nat) as [Hlt|Hge]; cbn [fst snd].
    + split; [split|].
      * intros l0 arr0 H0. rewrite lookup_alter_ne; [apply Hframe, H0|].
        intros ->. rewrite (Hfresh l0 eq_refl) in H0. discriminate H0.
      * unfold valid. cbn [ptr length cap off].
        exists (<[(off s + length s)%nat := x]> arr). rewrite lookup_alter_eq, Harr.
        split; [reflexivity|]. rewrite length_insert. lia.
      * cbn [ptr]. intros l0 [= <-]. apply Hfresh. reflexivity.
      * unfold view. cbn [ptr length off]. rewrite Hp, lookup_alter_eq, !Harr. cbn [default from_option id fmap option_fmap option_map].
        rewrite drop_insert_ge by lia.
        replace (off s + length s - off s)%nat with (length s) by lia.
        rewrite (take_S_r _ _ x) by (apply list_lookup_insert_eq; rewrite length_drop; lia).
        rewrite take_insert_ge by lia. reflexivity.
    + assert (Hnew : h !! fresh (dom h) = None).
      { apply not_elem_of_dom, is_fresh. }
      split; [split|].
      * intros l0 arr0 H0. rewrite lookup_insert_ne; [apply Hframe, H0|].
        intros <-. rewrite (Hframe _ _ H0) in Hnew. discriminate Hnew.
      * unfold valid. cbn [ptr length cap off]. eexists. rewrite lookup_insert_eq.
        split; [reflexivity|].
        pose proof (growcap_enough (cap s) (S (length s))).
        rewrite length_app. cbn [List.length]. rewrite length_replicate, view_length by exact Hvalid. lia.
      * cbn [ptr]. intros l0 [= <-].
        destruct (h0 !! fresh (dom h)) as [arr0|] eqn:E0; [|reflexivity].
        rewrite (Hframe _ _ E0) in Hnew. discriminate Hnew.
      * unfold view at 1. cbn [ptr length off]. rewrite lookup_insert_eq. cbn [default from_option id].
        rewrite drop_0.
        change (view h s ++ x :: replicate (growcap (cap s) (S (length s)) - S (length s)) zeroDeparture)
          with (view h s ++ [x] ++ replicate (growcap (cap s) (S (length s)) - S (length s)) zeroDeparture).
        rewrite app_assoc. apply take_app_length'.
        rewrite length_app. cbn [List.length]. rewrite Hvl. lia.
  - cbn [fst snd].
    assert (Hnew : h !! fresh (dom h) = None).
    { apply not_elem_of_dom, is_fresh. }
    split; [split|].
    * intros l0 arr0 H0. rewrite lookup_insert_ne; [apply Hframe, H0|].
      intros <-. rewrite (Hframe _ _ H0) in Hnew. discriminate Hnew.
    * unfold valid. cbn [ptr length cap off]. eexists. rewrite lookup_insert_eq.
      split; [reflexivity|].
      pose proof (growcap_enough 0 1).
      cbn [List.length]. rewrite length_replicate. lia.
    * cbn [ptr]. intros l0 [= <-].
      destruct (h0 !! fresh (dom h)) as [arr0|] eqn:E0; [|reflexivity].
      rewrite (Hframe _ _ E0) in Hnew. discriminate Hnew.
    * unfold view. cbn [ptr length off]. rewrite Hp, lookup_insert_eq. cbn [default from_option id].
      reflexivity.
Qed.

Lemma index_view h0 h departures i :
  valid h0 departures ->
  (forall l arr, h0 !! l = Some arr -> h !! l = Some arr) ->
  (i < length departures)%nat ->
  exists d, index h departures i = Ok d /\ view h0 departures !! i = Some d.
Proof.
  intros Hv Hframe Hi. unfold valid in Hv. unfold index.
  destruct (decide (i < length departures)%nat) as [_|N]; [|contradiction].
  destruct (ptr departures) as [l|] eqn:Hp; [|lia].
  destruct Hv as (arr & Harr & Hlen & Hcap).
  rewrite (Hframe _ _ Harr). cbn [default from_option id].
  rewrite (view_lookup h0 departures i arr l Hp Harr Hi).
  destruct (arr !! (off departures + i)%nat) as [d|] eqn:E.
  - exists d. split; reflexivity.
  - apply lookup_ge_None_1 in E. lia.
Qed.

Lemma range_loop_inv h0 departures lineID direction :
  valid h0 departures ->
  forall n i h filtered,
    inv h0 h filtered -> (i + n)%nat = length departures ->
    exists h' out,
      range_loop growcap n i departures lineID direction h filtered = Ok (h', out) /\
      inv h0 h' out /\
      view h' out
      = view h filtered ++ List.filter (kept lineID direction) (drop i (view h0 departures)).
Proof.
  intros Hv. induction n as [|n IH]; intros i h filtered Hinv Hn; cbn [range_loop].
  - exists h, filtered. split; [reflexivity|]. split; [exact Hinv|].
    rewrite drop_ge by (rewrite view_length by exact Hv; lia).
    cbn [List.filter]. now rewrite app_nil_r.
  - destruct (index_view h0 h departures i Hv (inv_frame _ _ _ Hinv)) as (d & -> & Hd); [lia|].
    rewrite (drop_S _ _ _ Hd). cbn [List.filter].
    rewrite continues_kept. destruct (kept lineID direction d); cbn [negb].
    + destruct (append_inv h0 h filtered d Hinv) as [Hinv' Hview'].
      destruct (append growcap h filtered d) as [h1 f1]. cbn [fst snd] in *.
      destruct (IH (S i) h1 f1 Hinv') as (h' & out & Hloop & Hinv'' & Hview''); [lia|].
      exists h', out. split; [exact Hloop|]. split; [exact Hinv''|].
      rewrite Hview'', Hview', <- app_assoc. reflexivity.
    + apply IH; [exact Hinv|lia].
Qed.

(** C8.  [filterDepartures] leaves the store it finds as it is: the call
    returns, every backing array that existed before the call is
    unchanged after it, so the input slice shows the same elements in the
    same order, and the slice returned is [nil] or lies in a newly
    allocated array; its elements are those of the filter on values. *)
Theorem filterDepartures_leaves_input h departures lineID direction :
  valid h departures ->
  exists h' out,
    mem.filterDepartures growcap h departures lineID direction = Ok (h', out) /\
    (forall l arr, h !! l = Some arr -> h' !! l = Some arr) /\
    view h' departures = view h departures /\
    (forall l, ptr out = Some l -> h !! l = None) /\
    view h' out = elems (filter_values (view h departures) lineID direction).
Proof.
  intros Hv. unfold mem.filterDepartures.
  assert (Hinv0 : inv h h nilHeader).
  { split; [auto| split; reflexivity | intros l [=]]. }
  destruct (range_loop_inv h departures lineID direction Hv
              (length departures) 0%nat h nilHeader Hinv0 eq_refl)
    as (h' & out & Hloop & [Hframe Hvalid Hfresh] & Hview).
  exists h', out. split; [exact Hloop|]. split; [exact Hframe|].
  split; [|split; [exact Hfresh|]].
  - unfold view. destruct (ptr departures) as [l|] eqn:Hp; [|reflexivity].
    unfold valid in Hv. rewrite Hp in Hv. destruct Hv as (arr & Harr & _).
    now rewrite (Hframe _ _ Harr), Harr.
  - rewrite Hview, filterDepartures_elems. reflexivity.
Qed.

End Append.
End mem_facts.


Lemma filterDepartures_leaves_input_witness :
  let d1 := departure 10 "Downtown" "North" "2024-01-15T08:00:00" "2024-01-15T08:05:00" in
  let d2 := departure 20 "Uptown" "South" "2024-01-15T08:10:00" "2024-01-15T08:10:00" in
  let h : gmap mem.loc (list Departure) := {[ 1%positive := [d1; d2; d1] ]} in
  let departures := mem.mkHeader (Some 1%positive) 0 3 3 in
  exists h' out,
    mem.filterDepartures grow_double h departures "10" "" = Ok (h', out) /\
    (forall l arr, h !! l = Some arr -> h' !! l = Some arr) /\
    mem.view h' departures = [d1; d2; d1] /\
    (forall l, mem.ptr out = Some l -> h !! l = None) /\
    mem.view h' out = [d1; d1].
Proof.
  intros d1 d2 h departures.
  apply (mem_facts.filterDepartures_leaves_input grow_double
           (fun oldcap needed => Nat.le_max_l needed (2 * oldcap)) h departures "10" "").
  exists [d1; d2; d1]. split; [reflexivity|]. cbn. lia.
Defined.

(** ** The order of the result *)

Module shellsort_facts.
Import shellsort.

Section Sorting.

Context {A : Type} (lt : A -> A -> bool).
Hypothesis lt_asym : forall a b, lt a b = true -> lt b a = false.
Hypothesis le_trans : forall a b c, lt b a = false -> lt c b = false -> lt c a = false.

Lemma swap_perm (l : list A) i j : Permutation (swap l i j) l.
Proof.
  unfold swap.
  destruct (l !! i) as [x|] eqn:Hi; [|reflexivity].
  destruct (l !! j) as [y|] eqn:Hj; [|reflexivity].
  pose proof (lookup_lt_Some _ _ _ Hi) as Li.
  pose proof (lookup_lt_Some _ _ _ Hj) as Lj.
  apply Permutation_inj. split; [now rewrite !length_insert|].
  exists (fun k => if decide (k = i) then j else if decide (k = j) then i else k).
  split.
  - intros a b. repeat case_decide; intros; subst; congruence.
  - intros k. destruct (decide (k = i)) as [->|Hki].
    + rewrite list_lookup_insert_eq by (rewrite length_insert; exact Li).
      symmetry. exact Hj.
    + rewrite list_lookup_insert_ne by congruence.
      destruct (decide (k = j)) as [->|Hkj].
      * rewrite list_lookup_insert_eq by exact Lj. symmetry. exact Hi.
      * rewrite list_lookup_insert_ne by congruence. reflexivity.
Qed.

Lemma gap_pass_perm gap (l : list A) : Permutation (gap_pass lt gap l) l.
Proof.
  unfold gap_pass. generalize (seq gap (List.length l - gap)). intros idx.
  revert l. induction idx as [|i idx IH]; intros l; cbn [foldl]; [reflexivity|].
  rewrite IH.
  destruct (l !! i) as [x|]; [|reflexivity].
  destruct (l !! (i - gap)%nat) as [y|]; [|reflexivity].
  destruct (lt x y); [apply swap_perm|reflexivity].
Qed.

Lemma insert_perm x (l : list A) : Permutation (insert lt x l) (x :: l).
Proof.
  induction l as [|y l IH]; cbn [insert]; [reflexivity|].
  destruct (lt y x); [|reflexivity].
  rewrite IH. apply perm_swap.
Qed.

Lemma insert_sorted x (l : list A) :
  StronglySorted (fun a b => lt b a = false) l ->
  StronglySorted (fun a b => lt b a = false) (insert lt x l).
Proof.
  induction 1 as [|y l Hs IH Hy]; cbn [insert].
  - repeat constructor.
  - destruct (lt y x) eqn:E.
    + constructor; [exact IH|].
      rewrite (insert_perm x l). constructor; [apply lt_asym, E|exact Hy].
    + constructor; [constructor; assumption|].
      constructor; [exact E|].
      eapply Forall_impl; [exact Hy|]. intros z Hz. cbn beta in *.
      eapply le_trans; eassumption.
Qed.

Lemma insertion_sort_perm (l : list A) : Permutation (insertion_sort lt l) l.
Proof.
  induction l as [|x l IH]; [reflexivity|].
  unfold insertion_sort in *. cbn [foldr]. rewrite insert_perm, IH. reflexivity.
Qed.

Lemma insertion_sort_sorted (l : list A) :
  StronglySorted (fun a b => lt b a = false) (insertion_sort lt l).
Proof.
  induction l as [|x l IH]; [constructor|].
  unfold insertion_sort in *. cbn [foldr]. apply insert_sorted, IH.
Qed.

Lemma sort_perm (l : list A) : Permutation (sort lt l) l.
Proof. unfold sort. rewrite insertion_sort_perm. apply gap_pass_perm. Qed.

Lemma sort_sorted (l : list A) :
  StronglySorted (fun a b => lt b a = false) (sort lt l).
Proof. apply insertion_sort_sorted. Qed.

End Sorting.
End shellsort_facts.

Lemma less_asym a b : less a b = true -> less b a = false.
Proof.
  unfold less, time.Before. intros H.
  apply orb_false_iff. rewrite andb_false_iff, !Z.ltb_ge, Z.eqb_neq.
  apply orb_true_iff in H. rewrite andb_true_iff, !Z.ltb_lt, Z.eqb_eq in H. lia.
Qed.

Lemma less_le_trans a b c : less b a = false -> less c b = false -> less c a = false.
Proof.
  unfold less, time.Before. intros H1 H2.
  apply orb_false_iff in H1. rewrite andb_false_iff, !Z.ltb_ge, Z.eqb_neq in H1.
  apply orb_false_iff in H2. rewrite andb_false_iff, !Z.ltb_ge, Z.eqb_neq in H2.
  apply orb_false_iff. rewrite andb_false_iff, !Z.ltb_ge, Z.eqb_neq. lia.
Qed.

Lemma shellsort_contract : sort_Slice_contract shellsort.sort.
Proof.
  intros l. split.
  - apply shellsort_facts.sort_perm.
  - apply shellsort_facts.sort_sorted; [apply less_asym|apply less_le_trans].
Qed.

Lemma less_strict_weak_order : strict_weak_order less.
Proof.
  unfold strict_weak_order, less, time.Before. split; [|split].
  - intros a. apply orb_false_iff. rewrite andb_false_iff, !Z.ltb_ge. lia.
  - intros a b c H1 H2.
    apply orb_true_iff in H1. rewrite andb_true_iff, !Z.ltb_lt, Z.eqb_eq in H1.
    apply orb_true_iff in H2. rewrite andb_true_iff, !Z.ltb_lt, Z.eqb_eq in H2.
    apply orb_true_iff. rewrite andb_true_iff, !Z.ltb_lt, Z.eqb_eq. lia.
  - intros a b c H1 H2.
    apply orb_false_iff in H1. rewrite andb_false_iff, !Z.ltb_ge, Z.eqb_neq in H1.
    apply orb_false_iff in H2. rewrite andb_false_iff, !Z.ltb_ge, Z.eqb_neq in H2.
    apply orb_false_iff. rewrite andb_false_iff, !Z.ltb_ge, Z.eqb_neq. lia.
Qed.

Lemma shellsort_sorts : sort_Slice_sorts shellsort.sort.
Proof.
  intros lt (Hirr & Htrans & Hneg) l. split.
  - apply shellsort_facts.sort_perm.
  - apply shellsort_facts.sort_sorted.
    + intros a b Hab. destruct (lt b a) eqn:Hba; [|reflexivity].
      rewrite <- (Hirr a). symmetry. exact (Htrans a b a Hab Hba).
    + intros a b c H1 H2. exact (Hneg c b a H2 H1).
Qed.

(** The comparison of the code agrees with the time line: a record that is
    not before another by [less] is expected no earlier. *)
Lemma not_less_not_after a b :
  less b a = false <-> not_after (Time (Expected a)) (Time (Expected b)).
Proof.
  unfold less, time.Before, not_after.
  rewrite orb_false_iff, andb_false_iff, !Z.ltb_ge, Z.eqb_neq. lia.
Qed.

Lemma sorted_in_expected_order l :
  StronglySorted (fun a b => less b a = false) l -> in_expected_order l.
Proof.
  unfold in_expected_order. induction 1 as [|a l Hs IH Ha]; constructor; [exact IH|].
  eapply Forall_impl; [exact Ha|]. intros b Hb. apply not_less_not_after, Hb.
Qed.

Section Sorted.

Variable fetchDepartures : string -> outcome Response.
Variable sort_Slice : (Departure -> Departure -> bool) -> list Departure -> list Departure.
Hypothesis sort_Slice_ok : sort_Slice_sorts sort_Slice.

(** C3, amended.  With a [sort.Slice] that does what the library
    documents for every comparison that is a transitive ordering,
    [getDepartures] returns the records the filter kept, rearranged so
    that every record is expected no later than the records after it;
    the order among records of one expected time is not fixed. *)
Theorem getDepartures_sorted r response :
  http.Get (http.Query r) "siteId" <> "" ->
  fetchDepartures (http.Get (http.Query r) "siteId") = Ok response ->
  exists departures,
    getDepartures fetchDepartures sort_Slice r
      = Ok (departures, http.Get (http.Query r) "siteId") /\
    in_expected_order (elems departures) /\
    Permutation (elems departures)
      (elems (filterDepartures (elems (Departures response))
                (http.Get (http.Query r) "lineId")
                (http.Get (http.Query r) "direction"))).
Proof.
  intros Hsite Hfetch. unfold getDepartures.
  apply String.eqb_neq in Hsite. rewrite Hsite, Hfetch.
  eexists. split; [reflexivity|].
  destruct (filterDepartures _ _ _) as [|l]; cbn [sort_in_place elems].
  - split; [constructor|reflexivity].
  - destruct (sort_Slice_ok less less_strict_weak_order l) as [Hperm Hsorted].
    split; [apply sorted_in_expected_order, Hsorted|exact Hperm].
Qed.

End Sorted.

Lemma getDepartures_sorted_witness :
  exists departures,
    getDepartures (fetch_fixed seven) shellsort.sort (GET "/departures" [("siteId", "9001")])
      = Ok (departures, "9001") /\
    in_expected_order (elems departures) /\
    Permutation (elems departures) seven.
Proof.
  apply (getDepartures_sorted (fetch_fixed seven) shellsort.sort shellsort_sorts
           (GET "/departures" [("siteId", "9001")]) (mkResponse (Slice seven))).
  - vm_compute. discriminate.
  - reflexivity.
Defined.

(** C3 as stated fails: on thirteen records [sort.Slice] itself exchanges
    records of one expected time. *)
Lemma sort_Slice_reorders_ties :
  exists departures,
    getDepartures (fetch_fixed thirteen) (@pdqsort.Slice Departure)
        (GET "/departures" [("siteId", "9001")])
      = Ok (departures, "9001") /\
    map Destination (elems (filterDepartures thirteen "" ""))
      = ["A"; "B"; "C"; "D"; "E"; "F"; "G"; "H"; "I"; "J"; "K"; "L"; "M"] /\
    map Destination (elems departures)
      = ["G"; "C"; "D"; "E"; "F"; "H"; "I"; "J"; "K"; "L"; "M"; "B"; "A"] /\
    in_expected_order (elems departures) /\
    ~ keeps_ties (elems (filterDepartures thirteen "" "")) (elems departures).
Proof.
  eexists. split; [reflexivity|]. split; [reflexivity|]. split; [vm_compute; reflexivity|].
  split.
  - unfold in_expected_order. cbn [elems].
    match goal with |- StronglySorted _ ?l =>
      let l' := eval vm_compute in l in change l with l' end.
    repeat (apply SSorted_cons;
            [|repeat (constructor;
                      [unfold not_after; cbn [time.sec time.nsec Time Expected]; lia|]);
              constructor]).
    apply SSorted_nil.
  - intros H. specialize (H (departure 1 "A" "North" "2024-01-15T09:05:00" "2024-01-15T09:05:00")).
    vm_compute in H. discriminate H.
Qed.

(** * Further properties *)

(** ** What the time codec accepts and gives back *)

Lemma parse_chunk_no_panic c st value msg : time.parse_chunk c st value <> Panic msg.
Proof.
  destruct c; cbn [time.parse_chunk]; unfold time.bad;
    repeat case_match; discriminate.
Qed.

Lemma parse_chunks_no_panic l st value msg : time.parse_chunks l st value <> Panic msg.
Proof.
  revert st value. induction l as [|c l IH]; intros st value; cbn [time.parse_chunks].
  - unfold time.bad. destruct value; discriminate.
  - destruct (time.parse_chunk c st value) as [[st' value']|e|m] eqn:E;
      [apply IH|discriminate|].
    exfalso. exact (parse_chunk_no_panic _ _ _ _ E).
Qed.

Lemma Parse_no_panic l value msg : time.Parse l value <> Panic msg.
Proof.
  unfold time.Parse.
  destruct (time.parse_chunks l time.fields0 value) as [st|e|m] eqn:E.
  - unfold time.bad. case_match; discriminate.
  - discriminate.
  - exfalso. exact (parse_chunks_no_panic _ _ _ _ E).
Qed.

(** X1.  [UnmarshalJSON] panics on exactly the inputs shorter than two
    bytes; on every longer input it returns a value or an error. *)
Theorem UnmarshalJSON_panics_iff_short b :
  (exists msg, UnmarshalJSON b = Panic msg) <-> len b < 2.
Proof.
  split.
  - intros [msg H]. destruct (Z.lt_ge_cases (len b) 2) as [L|G]; [exact L|].
    exfalso. unfold UnmarshalJSON in H. rewrite str_slice_interior in H by lia.
    cbn [mbind outcome_bind] in H.
    destruct (time.Parse layout_datetime (interior b)) as [t|e|m] eqn:E;
      [discriminate H|discriminate H|].
    exact (Parse_no_panic _ _ _ E).
  - intros L. eexists. unfold UnmarshalJSON, str_slice.
    replace ((0 <=? 1) && (1 <=? len b - 1) && (len b - 1 <=? len b)) with false; [reflexivity|].
    symmetry. apply andb_false_iff. left. apply andb_false_iff. right.
    apply Z.leb_gt. lia.
Qed.

Lemma getyear_inv value y value' :
  time.getyear value = Some (y, value') -> 0 <= y < 10000.
Proof.
  unfold time.getyear. repeat case_match; try discriminate. intros [= <- <-].
  repeat match goal with H : _ && _ = true |- _ => apply andb_true_iff in H; destruct H end.
  repeat match goal with H : isDigit ?c = true |- _ =>
                           pose proof (digit_val_bound c H); clear H end.
  lia.
Qed.

Lemma getnum_inv value fixed n value' :
  time.getnum value fixed = Some (n, value') -> 0 <= n < 100.
Proof.
  unfold time.getnum. repeat case_match; try discriminate; intros [= <- <-];
  repeat match goal with H : isDigit ?c = true |- _ =>
                           pose proof (digit_val_bound c H); clear H end; lia.
Qed.

(** What a successful [Parse] in the layout of the codec has read. *)
Lemma Parse_datetime_inv value t :
  time.Parse layout_datetime value = Ok t ->
  exists Y M D h mi s ns,
    fields_ok Y M D h mi s = true /\ 0 <= Y < 10000 /\ 0 <= h /\ 0 <= mi /\ 0 <= s /\
    t = time.Date Y M D h mi s ns.
Proof.
  unfold time.Parse, layout_datetime. intros H.
  cbn [time.parse_chunks time.parse_chunk] in H. unfold time.bad in H.
  repeat match type of H with
         | context [match time.skip ?v ?l with _ => _ end] =>
             destruct (time.skip v l); [|discriminate H]
         | context [match time.getyear ?v with _ => _ end] =>
             let E := fresh "Ey" in
             destruct (time.getyear v) as [[? ?]|] eqn:E; [apply getyear_inv in E|discriminate H]
         | context [match time.getnum ?v ?f with _ => _ end] =>
             let E := fresh "En" in
             destruct (time.getnum v f) as [[? ?]|] eqn:E; [apply getnum_inv in E|discriminate H]
         | context [if ?c then Err _ else _] =>
             destruct c eqn:?; [discriminate H|]
         | _ => progress cbn [time.parse_chunks time.parse_chunk time.f_year time.f_month
                                time.f_day time.f_hour time.f_min time.f_sec time.f_nsec] in H
         end.
  assert (Hfin : forall Y M D h mi sc ns rest,
            0 <= Y < 10000 -> (M <=? 0) || (12 <? M) = false ->
            (h <? 0) || (24 <=? h) = false -> (mi <? 0) || (60 <=? mi) = false ->
            (sc <? 0) || (60 <=? sc) = false ->
            match
              match time.parse_chunks [] (time.mkFields Y M D h mi sc ns) rest with
              | Ok st =>
                  if (time.f_day st <? 1)
                     || (time.daysIn (time.f_month st) (time.f_year st) <? time.f_day st)
                  then Err (ParseError value "day out of range")
                  else Ok (time.Date (time.f_year st) (time.f_month st) (time.f_day st)
                             (time.f_hour st) (time.f_min st) (time.f_sec st) (time.f_nsec st))
              | Err e => Err e
              | Panic msg => Panic msg
              end
            with
            | Ok t' => t' = t
            | _ => False
            end ->
            exists Y M D h mi s ns,
              fields_ok Y M D h mi s = true /\ 0 <= Y < 10000 /\ 0 <= h /\ 0 <= mi /\ 0 <= s /\
              t = time.Date Y M D h mi s ns).
  { intros Y M D h mi sc ns rest HY HM Hh Hmi Hsc Hres.
    cbn [time.parse_chunks] in Hres. unfold time.bad in Hres.
    destruct rest; [|destruct Hres].
    cbn [time.f_year time.f_month time.f_day time.f_hour time.f_min time.f_sec time.f_nsec]
      in Hres.
    destruct ((D <? 1) || (time.daysIn M Y <? D)) eqn:HD; [destruct Hres|].
    exists Y, M, D, h, mi, sc, ns. unfold fields_ok. bool_to_prop.
    split; [rewrite !andb_true_iff, !Z.leb_le, !Z.ltb_lt; lia|].
    do 4 (split; [lia|]). symmetry. exact Hres. }
  destruct s9 as [|p [|d rest]].
  - apply (Hfin z z0 z1 z2 z3 z4 (time.f_nsec time.fields0) ""); try assumption.
    exact (@eq_ind_r _ (Ok t) (fun o => match o with Ok t' => t' = t | _ => False end) eq_refl _ H).
  - apply (Hfin z z0 z1 z2 z3 z4 (time.f_nsec time.fields0) (String p "")); try assumption.
    exact (@eq_ind_r _ (Ok t) (fun o => match o with Ok t' => t' = t | _ => False end) eq_refl _ H).
  - destruct (time.commaOrPeriod p && isDigit d).
    + destruct (time.span_digits (String d rest)) as [ds rest'].
      apply (Hfin z z0 z1 z2 z3 z4 (time.parseNanoseconds ds) rest'); try assumption.
    exact (@eq_ind_r _ (Ok t) (fun o => match o with Ok t' => t' = t | _ => False end) eq_refl _ H).
    + apply (Hfin z z0 z1 z2 z3 z4 (time.f_nsec time.fields0) (String p (String d rest))); try assumption.
    exact (@eq_ind_r _ (Ok t) (fun o => match o with Ok t' => t' = t | _ => False end) eq_refl _ H).
Qed.

Lemma digit_char_digit d :
  0 <= d <= 9 -> isDigit (digit_char d) = true /\ digit_val (digit_char d) = d.
Proof.
  intros H.
  assert (E : d = 0 \/ d = 1 \/ d = 2 \/ d = 3 \/ d = 4 \/ d = 5 \/ d = 6 \/ d = 7 \/
              d = 8 \/ d = 9) by lia.
  repeat (destruct E as [->|E]); [..|subst d]; split; reflexivity.
Qed.

Lemma two_digits_of n :
  0 <= n < 100 ->
  exists a b, isDigit a = true /\ isDigit b = true /\ n = digit_val a * 10 + digit_val b.
Proof.
  intros H. exists (digit_char (n / 10)), (digit_char (n mod 10)).
  destruct (digit_char_digit (n / 10)) as [Ha ->]; [zdm|].
  destruct (digit_char_digit (n mod 10)) as [Hb ->]; [zdm|].
  repeat split; [exact Ha|exact Hb|zdm].
Qed.

Lemma four_digits_of n :
  0 <= n < 10000 ->
  exists a b c d,
    isDigit a = true /\ isDigit b = true /\ isDigit c = true /\ isDigit d = true /\
    n = ((digit_val a * 10 + digit_val b) * 10 + digit_val c) * 10 + digit_val d.
Proof.
  intros H.
  exists (digit_char (n / 1000)), (digit_char (n / 100 mod 10)),
         (digit_char (n / 10 mod 10)), (digit_char (n mod 10)).
  destruct (digit_char_digit (n / 1000)) as [Ha ->]; [zdm|].
  destruct (digit_char_digit (n / 100 mod 10)) as [Hb ->]; [zdm|].
  destruct (digit_char_digit (n / 10 mod 10)) as [Hc ->]; [zdm|].
  destruct (digit_char_digit (n mod 10)) as [Hd ->]; [zdm|].
  repeat split; [exact Ha|exact Hb|exact Hc|exact Hd|zdm].
Qed.

(** X2.  Whatever input decodes, the decoded value encodes to a quoted
    string of the pattern that names a date and a time of day, and that
    string decodes to the same second, the fraction dropped. *)
Theorem decode_encode_decode b ct :
  UnmarshalJSON b = Ok ct ->
  exists s,
    in_pattern s = true /\ valid_timestamp s = true /\
    MarshalJSON ct = Ok (quoted s) /\
    UnmarshalJSON (quoted s) = Ok (whole_second ct).
Proof.
  intros H. unfold UnmarshalJSON in H.
  destruct (str_slice b 1 (len b - 1)) as [v|e|m]; cbn [mbind outcome_bind] in H;
    [|discriminate H..].
  destruct (time.Parse layout_datetime v) as [t|e|m] eqn:EP; [|discriminate H..].
  injection H as <-.
  destruct (Parse_datetime_inv v t EP)
    as (Y & M & D & h & mi & sc & ns & Hok & HY & Hh & Hmi & Hsc & ->).
  pose proof Hok as Hok'. unfold fields_ok in Hok'. bool_to_prop.
  pose proof (time_facts.daysIn_le_31 (time.isLeap Y) M ltac:(lia)) as H31.
  change (time.daysIn_leap (time.isLeap Y) M) with (time.daysIn M Y) in H31.
  destruct (four_digits_of Y HY) as (y1 & y2 & y3 & y4 & ? & ? & ? & ? & EY).
  destruct (two_digits_of M ltac:(lia)) as (m1 & m2 & ? & ? & EM).
  destruct (two_digits_of D ltac:(lia)) as (d1 & d2 & ? & ? & ED).
  destruct (two_digits_of h ltac:(lia)) as (h1 & h2 & ? & ? & Eh).
  destruct (two_digits_of mi ltac:(lia)) as (n1 & n2 & ? & ? & Emi).
  destruct (two_digits_of sc ltac:(lia)) as (s1 & s2 & ? & ? & Esc).
  assert (HF : Forall (fun c => isDigit c = true)
                 [y1; y2; y3; y4; m1; m2; d1; d2; h1; h2; n1; n2; s1; s2])
    by (repeat constructor; assumption).
  pose proof (Parse_pattern _ _ _ _ _ _ _ _ _ _ _ _ _ _ HF) as HP. cbv zeta in HP.
  pose proof (Format_pattern _ _ _ _ _ _ _ _ _ _ _ _ _ _ ns HF) as HFm. cbv zeta in HFm.
  pose proof (Marshal_pattern _ _ _ _ _ _ _ _ _ _ _ _ _ _ HF) as HM. cbv zeta in HM.
  pose proof (valid_timestamp_pattern y1 y2 y3 y4 m1 m2 d1 d2 h1 h2 n1 n2 s1 s2) as HV.
  cbv zeta in HV.
  rewrite <- EY, <- EM, <- ED, <- Eh, <- Emi, <- Esc in HP, HFm, HV.
  rewrite Hok in HP, HV. specialize (HFm Hok).
  eexists. split; [|split; [exact HV|split]].
  - unfold in_pattern.
    repeat match goal with H : isDigit ?c = true |- context [isDigit ?c] => rewrite H end.
    reflexivity.
  - unfold MarshalJSON. cbn [Time]. rewrite HFm, HM. reflexivity.
  - unfold UnmarshalJSON. rewrite str_slice_quoted. cbn [mbind outcome_bind].
    rewrite HP. reflexivity.
Qed.

Lemma decode_encode_decode_witness :
  exists s,
    in_pattern s = true /\ valid_timestamp s = true /\
    MarshalJSON (at_time "2024-02-29T8:30:59.123456789123") = Ok (quoted s) /\
    UnmarshalJSON (quoted s) = Ok (whole_second (at_time "2024-02-29T8:30:59.123456789123")).
Proof.
  apply (decode_encode_decode (quoted "2024-02-29T8:30:59.123456789123")).
  vm_compute. reflexivity.
Defined.

Lemma span_all_digits ds :
  strconv.all_digits ds = true -> time.span_digits ds = (ds, EmptyString).
Proof.
  induction ds as [|c ds IH]; [reflexivity|]. cbn [strconv.all_digits time.span_digits].
  intros H. apply andb_true_iff in H as [Hc Hds]. rewrite Hc, (IH Hds). reflexivity.
Qed.

Lemma Parse_pattern_fraction y1 y2 y3 y4 m1 m2 d1 d2 h1 h2 n1 n2 s1 s2 p ds :
  Forall (fun c => isDigit c = true) [y1; y2; y3; y4; m1; m2; d1; d2; h1; h2; n1; n2; s1; s2] ->
  time.commaOrPeriod p = true -> ds <> EmptyString -> strconv.all_digits ds = true ->
  let Y := ((digit_val y1 * 10 + digit_val y2) * 10 + digit_val y3) * 10 + digit_val y4 in
  let M := digit_val m1 * 10 + digit_val m2 in
  let D := digit_val d1 * 10 + digit_val d2 in
  let h := digit_val h1 * 10 + digit_val h2 in
  let mi := digit_val n1 * 10 + digit_val n2 in
  let s := digit_val s1 * 10 + digit_val s2 in
  fields_ok Y M D h mi s = true ->
  time.Parse layout_datetime
    (String y1 (String y2 (String y3 (String y4 (String "-"
         (String m1 (String m2 (String "-"
         (String d1 (String d2 (String "T"
         (String h1 (String h2 (String ":"
         (String n1 (String n2 (String ":"
         (String s1 (String s2 (String p ds))))))))))))))))))))
  = Ok (time.Date Y M D h mi s (time.parseNanoseconds ds)).
Proof.
  intros HF Hp Hne Hds Y M D h mi s F.
  repeat match goal with H : Forall _ (_ :: _) |- _ => inversion H; subst; clear H end.
  repeat match goal with H : Forall _ [] |- _ => clear H end.
  destruct ds as [|d rest]; [contradiction|].
  pose proof (span_all_digits _ Hds) as Hspan.
  cbn [strconv.all_digits] in Hds. apply andb_true_iff in Hds as [Hd _].
  unfold time.Parse, layout_datetime.
  repeat match goal with
         | H : isDigit ?c = true |- _ =>
             lazymatch goal with
             | _ : 0 <= digit_val c <= 9 |- _ => fail
             | _ => pose proof (digit_val_bound c H)
             end
         end.
  unfold fields_ok in F; subst Y M D h mi s.
  repeat first
    [ progress parse_step
    | match goal with
      | |- context [if ?c then time.bad _ _ else _] =>
          destruct c eqn:?; [ bool_to_prop; lia | ]
      end ].
  rewrite Hp, Hspan. parse_step.
  match goal with
  | |- context [if ?c then time.bad _ _ else _] => destruct c eqn:?; [ bool_to_prop; lia | ]
  end.
  reflexivity.
Qed.

(** X3.  After a timestamp of the pattern the decoder also reads a comma
    or a period and digits, as a fraction of the second; the encoder writes
    the value without it, so that the wire string does not come back. *)
Theorem fraction_is_read_and_dropped s p ds :
  in_pattern s = true -> valid_timestamp s = true ->
  time.commaOrPeriod p = true -> ds <> EmptyString -> strconv.all_digits ds = true ->
  exists ct ct',
    UnmarshalJSON (quoted s) = Ok ct /\
    UnmarshalJSON (quoted (s +:+ String p ds)) = Ok ct' /\
    time.sec (Time ct') = time.sec (Time ct) /\
    time.nsec (Time ct') = time.parseNanoseconds ds /\
    MarshalJSON ct' = Ok (quoted s).
Proof.
  intros Hpat Hvalid Hp Hne Hds.
  destruct (in_pattern_inv s Hpat)
    as (y1 & y2 & y3 & y4 & m1 & m2 & d1 & d2 & h1 & h2 & n1 & n2 & s1 & s2 & -> & HF).
  rewrite valid_timestamp_pattern in Hvalid.
  pose proof (Parse_pattern _ _ _ _ _ _ _ _ _ _ _ _ _ _ HF) as HP. cbv zeta in HP.
  rewrite Hvalid in HP.
  pose proof (Parse_pattern_fraction _ _ _ _ _ _ _ _ _ _ _ _ _ _ p ds HF Hp Hne Hds Hvalid) as HPf.
  pose proof (Format_pattern _ _ _ _ _ _ _ _ _ _ _ _ _ _ (time.parseNanoseconds ds) HF Hvalid)
    as HFm.
  do 2 eexists. split; [|split; [|split; [|split]]].
  - unfold UnmarshalJSON. rewrite str_slice_quoted. cbn [mbind outcome_bind].
    rewrite HP. reflexivity.
  - unfold UnmarshalJSON. rewrite str_slice_quoted. cbn [mbind outcome_bind].
    cbv beta iota fix delta [String.append]. rewrite HPf. reflexivity.
  - reflexivity.
  - reflexivity.
  - unfold MarshalJSON. cbn [Time]. rewrite HFm.
    f_equal. apply (Marshal_pattern _ _ _ _ _ _ _ _ _ _ _ _ _ _ HF).
Qed.

Lemma fraction_is_read_and_dropped_witness :
  exists ct ct',
    UnmarshalJSON (quoted "2024-01-15T08:30:00") = Ok ct /\
    UnmarshalJSON (quoted "2024-01-15T08:30:00,75") = Ok ct' /\
    time.sec (Time ct') = time.sec (Time ct) /\
    time.nsec (Time ct') = 750000000 /\
    MarshalJSON ct' = Ok (quoted "2024-01-15T08:30:00").
Proof.
  apply (fraction_is_read_and_dropped "2024-01-15T08:30:00" "," "75");
    first [reflexivity | discriminate].
Defined.

(** ** The filter, composed and fed with printed identifiers *)

Lemma filter_twice {A} (f g : A -> bool) (l : list A) :
  List.filter f (List.filter g l) = List.filter (fun x => g x && f x) l.
Proof.
  induction l as [|x l IH]; [reflexivity|]. cbn [List.filter].
  destruct (g x); cbn [List.filter andb]; [destruct (f x)|]; now rewrite IH.
Qed.

Lemma kept_split lineID direction d :
  kept lineID direction d = kept lineID "" d && kept "" direction d.
Proof.
  unfold kept. change (String.eqb "" "") with true. cbn [orb].
  rewrite andb_true_r. reflexivity.
Qed.

(** X4.  Filtering by line and then by direction, or by direction and
    then by line, keeps what filtering by both keeps; filtering the result
    again with the same filters changes nothing. *)
Theorem filterDepartures_composes departures lineID direction :
  elems (filterDepartures (elems (filterDepartures departures lineID "")) "" direction)
    = elems (filterDepartures departures lineID direction) /\
  elems (filterDepartures (elems (filterDepartures departures "" direction)) lineID "")
    = elems (filterDepartures departures lineID direction) /\
  elems (filterDepartures (elems (filterDepartures departures lineID direction))
           lineID direction)
    = elems (filterDepartures departures lineID direction).
Proof.
  rewrite !filterDepartures_elems, !filter_twice. repeat split.
  - apply List.filter_ext. intros d. now rewrite (kept_split lineID direction d).
  - apply List.filter_ext. intros d.
    rewrite (kept_split lineID direction d). apply andb_comm.
  - apply List.filter_ext. intros d. apply andb_diag.
Qed.

Lemma append_cons c s t : String c s +:+ t = String c (s +:+ t).
Proof. reflexivity. Qed.

Lemma append_assoc' s t u : (s +:+ t) +:+ u = s +:+ (t +:+ u).
Proof. induction s as [|c s IH]; [reflexivity|]. rewrite !append_cons. now rewrite IH. Qed.

Lemma all_digits_app s t :
  strconv.all_digits (s +:+ t) = strconv.all_digits s && strconv.all_digits t.
Proof.
  induction s as [|c s IH]; [reflexivity|]. rewrite append_cons.
  cbn [strconv.all_digits]. rewrite IH. apply andb_assoc.
Qed.

Lemma digits_val_app a s t :
  time.digits_val a (s +:+ t) = time.digits_val (time.digits_val a s) t.
Proof.
  revert a. induction s as [|c s IH]; intros a; [reflexivity|]. rewrite append_cons.
  cbn [time.digits_val]. apply IH.
Qed.

(** The digits [utoa_fuel] writes, when the rounds suffice. *)
Lemma utoa_fuel_digits f :
  forall u acc, 0 <= u < 10 ^ Z.of_nat f -> (1 <= f)%nat ->
    exists ds, ds <> EmptyString /\ strconv.all_digits ds = true /\
               time.digits_val 0 ds = u /\ utoa_fuel f u acc = ds +:+ acc.
Proof.
  induction f as [|f IH]; intros u acc Hu Hf; [lia|].
  cbn [utoa_fuel].
  assert (Hm : 0 <= u mod 10 <= 9) by zdm.
  destruct (digit_char_digit (u mod 10) Hm) as [Hd Hv].
  destruct (u / 10 =? 0) eqn:E.
  - apply Z.eqb_eq in E.
    exists (String (digit_char (u mod 10)) EmptyString). split; [discriminate|].
    split; [cbn [strconv.all_digits]; now rewrite Hd|].
    split; [cbn [time.digits_val]; rewrite Hv; zdm|reflexivity].
  - apply Z.eqb_neq in E.
    rewrite Nat2Z.inj_succ, Z.pow_succ_r in Hu by lia.
    assert (Hf' : (1 <= f)%nat).
    { destruct f; [|lia]. exfalso. apply E. change (10 ^ Z.of_nat 0) with 1 in Hu. zdm. }
    destruct (IH (u / 10) (String (digit_char (u mod 10)) acc)) as (ds & Hne & Hall & Hval & Heq);
      [zdm|exact Hf'|].
    exists (ds +:+ String (digit_char (u mod 10)) EmptyString).
    split; [destruct ds; [contradiction|discriminate]|].
    split; [rewrite all_digits_app, Hall; cbn [strconv.all_digits]; now rewrite Hd|].
    split.
    + rewrite digits_val_app, Hval. cbn [time.digits_val]. rewrite Hv. zdm.
    + rewrite Heq, append_assoc'. reflexivity.
Qed.

Lemma utoa_digits u :
  0 <= u <= 2 ^ 63 ->
  exists c ds, utoa u = String c ds /\ isDigit c = true /\
               strconv.all_digits ds = true /\ time.digits_val 0 (String c ds) = u.
Proof.
  intros Hu. unfold utoa.
  destruct (utoa_fuel_digits 20 u EmptyString) as (ds & Hne & Hall & Hval & Heq);
    [split; [lia|]; apply Z.le_lt_trans with (2 ^ 63); [lia|reflexivity] | lia |].
  destruct ds as [|c ds]; [contradiction|].
  cbn [strconv.all_digits] in Hall. apply andb_true_iff in Hall as [Hc Hds].
  exists c, ds. rewrite Heq.
  split; [clear; induction ds as [|a ds IH]; [reflexivity|]; rewrite !append_cons in *;
          injection IH as IH; now rewrite IH |].
  auto.
Qed.

Lemma digit_not_sign c : isDigit c = true -> Ascii.eqb c "-" = false /\ Ascii.eqb c "+" = false.
Proof. ascii_cases c; intros _; split; reflexivity. Qed.

Lemma Atoi_itoa n : is_int n -> strconv.Atoi (itoa n) = Ok n.
Proof.
  unfold is_int. intros Hn. unfold itoa. destruct (n <? 0) eqn:E.
  - apply Z.ltb_lt in E.
    destruct (utoa_digits (- n)) as (c & ds & -> & Hc & Hds & Hval); [lia|].
    unfold strconv.Atoi. change (Ascii.eqb "-" "-") with true. cbv iota beta.
    cbn [strconv.all_digits]. rewrite Hc, Hds. cbn [andb]. rewrite Hval, Z.opp_involutive.
    replace ((n <? - 2 ^ 63) || (2 ^ 63 - 1 <? n)) with false; [reflexivity|].
    symmetry. apply orb_false_iff. rewrite !Z.ltb_ge. lia.
  - apply Z.ltb_ge in E.
    destruct (utoa_digits n) as (c & ds & -> & Hc & Hds & Hval); [lia|].
    destruct (digit_not_sign c Hc) as [Hm Hp].
    unfold strconv.Atoi. rewrite Hm, Hp.
    cbn [strconv.all_digits]. rewrite Hc, Hds. cbn [andb]. rewrite Hval.
    replace ((n <? - 2 ^ 63) || (2 ^ 63 - 1 <? n)) with false; [reflexivity|].
    symmetry. apply orb_false_iff. rewrite !Z.ltb_ge. lia.
Qed.

Lemma itoa_nonempty n : is_int n -> String.eqb (itoa n) "" = false.
Proof.
  unfold is_int. intros Hn. apply String.eqb_neq. unfold itoa.
  destruct (n <? 0) eqn:E; [discriminate|].
  apply Z.ltb_ge in E. destruct (utoa_digits n) as (c & ds & -> & _); [lia|discriminate].
Qed.

(** X5.  The line identifier as the report prints it with [%d], given as
    the [lineId] filter, selects exactly the records of that line. *)
Theorem printed_ID_selects_line departures id :
  is_int id ->
  elems (filterDepartures departures (itoa id) "")
    = List.filter (fun d => ID (Line_ d) =? id) departures.
Proof.
  intros Hid. rewrite filterDepartures_elems. apply List.filter_ext. intros d.
  unfold kept. rewrite (Atoi_itoa id Hid), (itoa_nonempty id Hid).
  change (String.eqb "" "") with true. cbn [orb]. rewrite andb_true_r.
  apply Z.eqb_sym.
Qed.

Lemma printed_ID_selects_line_witness :
  let d10 := departure 10 "Downtown" "North" "2024-01-15T08:00:00" "2024-01-15T08:05:00" in
  let dm7 := departure (-7) "Uptown" "South" "2024-01-15T08:10:00" "2024-01-15T08:10:00" in
  elems (filterDepartures [d10; dm7; d10] (itoa (-7)) "") = [dm7].
Proof.
  intros d10 dm7.
  rewrite (printed_ID_selects_line [d10; dm7; d10] (-7)); [reflexivity|].
  unfold is_int. lia.
Defined.

(** ** The responses of the handlers *)

Lemma append_nil_r s : s +:+ "" = s.
Proof. induction s as [|c s IH]; [reflexivity|]. rewrite append_cons. now rewrite IH. Qed.

(** The escapes of a JSON string on some bytes: [<], [&], [>]; backspace
    and form feed; the three bytes of U+2028; a byte that is no UTF-8; the
    two bytes of U+00E9, which are copied. *)
Lemma escape_examples :
  json.escape "<a&b>" = "\u003ca\u0026b\u003e" /\
  json.escape (String (ascii_of_nat 8) (String (ascii_of_nat 12) "")) = "\b\f" /\
  json.escape (String (ascii_of_nat 226) (String (ascii_of_nat 128)
                 (String (ascii_of_nat 168) ""))) = "\u2028" /\
  json.escape (String (ascii_of_nat 255) "z") = "\ufffdz" /\
  json.escape (String (ascii_of_nat 195) (String (ascii_of_nat 169) ""))
    = String (ascii_of_nat 195) (String (ascii_of_nat 169) "").
Proof. vm_compute. repeat split. Qed.

(** The encoding of a record never fails, so the encoding of the elements
    gives one object per record. *)
Lemma json_Departure_total d : exists o, json_Departure d = Ok o.
Proof. unfold json_Departure, MarshalJSON. cbn [mbind outcome_bind]. eauto. Qed.

Lemma json_elements_total l :
  exists objects,
    json_elements l = Ok objects /\
    Forall2 (fun d o => json_Departure d = Ok o) l objects.
Proof.
  induction l as [|d l (objects & IH & HF)]; [exists []; split; [reflexivity|constructor]|].
  destruct (json_Departure_total d) as [o Ho].
  exists (o :: objects). split.
  - cbn [json_elements]. rewrite Ho, IH. reflexivity.
  - constructor; assumption.
Qed.

Lemma Write_after_status data w c :
  http.status w = Some c ->
  http.Write data w = http.mkResponseWriter (http.Header w) (Some c) (http.body w +:+ data).
Proof. intros Hw. unfold http.Write, http.WriteHeader. rewrite Hw. now rewrite Hw. Qed.

Lemma write_blocks l : forall w,
  http.status w = Some http.StatusOK ->
  fold_left (fun w d => http.Write (print_block d) w) l w
  = http.mkResponseWriter (http.Header w) (Some http.StatusOK)
      (http.body w +:+ String.concat "" (map print_block l)).
Proof.
  induction l as [|d l IH]; intros w Hw; cbn [fold_left map].
  - cbn [String.concat]. rewrite append_nil_r. destruct w; cbn in *. now subst.
  - rewrite (Write_after_status _ _ _ Hw). rewrite IH by reflexivity.
    cbn [http.Header http.body]. f_equal. rewrite append_assoc'. f_equal.
    destruct l; cbn [map String.concat]; [now rewrite append_nil_r|reflexivity].
Qed.

Section Responses.

Variable fetchDepartures : string -> outcome Response.
Variable sort_Slice : (Departure -> Departure -> bool) -> list Departure -> list Departure.

(** X6.  When the fetch returns an error, both handlers answer with status
    500, the plain-text content type and the body ["Error fetching
    departure data: "] followed by the text of the error and a newline. *)
Theorem fetch_error_response r e :
  http.Get (http.Query r) "siteId" <> "" ->
  fetchDepartures (http.Get (http.Query r) "siteId") = Err e ->
  http.Path r = "/departures" \/ http.Path r = "/departures/json" ->
  serve fetchDepartures sort_Slice r
  = Ok (http.mkResponseWriter
          (<["X-Content-Type-Options" := "nosniff"]>
             {[ "Content-Type" := "text/plain; charset=utf-8" ]})
          (Some 500)
          ("Error fetching departure data: " +:+ Error_ e +:+ nl)).
Proof.
  intros Hsite Hfetch Hpath.
  assert (Hget : getDepartures fetchDepartures sort_Slice r = Err e).
  { unfold getDepartures. apply String.eqb_neq in Hsite. now rewrite Hsite, Hfetch. }
  destruct Hpath as [Hp|Hp]; unfold serve; rewrite Hp; cbn [String.eqb Ascii.eqb Bool.eqb];
    unfold handleDepartures, handleDeparturesJSON; rewrite Hget; reflexivity.
Qed.

(** X8.  Whenever the pipeline succeeds, the JSON handler answers with
    status 200, content type [application/json] and one JSON array that
    holds, in the order of the records returned by [getDepartures], the
    object the encoder gives for each record, and a newline; the encoding
    of a record never fails. *)
Theorem json_response_is_an_array r response :
  http.Get (http.Query r) "siteId" <> "" ->
  fetchDepartures (http.Get (http.Query r) "siteId") = Ok response ->
  http.Path r = "/departures/json" ->
  exists departures objects,
    getDepartures fetchDepartures sort_Slice r
      = Ok (departures, http.Get (http.Query r) "siteId") /\
    Forall2 (fun d o => json_Departure d = Ok o) (elems departures) objects /\
    serve fetchDepartures sort_Slice r
    = Ok (http.mkResponseWriter {[ "Content-Type" := "application/json" ]} (Some 200)
            ("[" +:+ String.concat "," objects +:+ "]" +:+ nl)).
Proof.
  intros Hsite Hfetch Hp.
  assert (Hget : exists departures, getDepartures fetchDepartures sort_Slice r
                   = Ok (departures, http.Get (http.Query r) "siteId")).
  { unfold getDepartures. apply String.eqb_neq in Hsite. rewrite Hsite, Hfetch. eauto. }
  destruct Hget as [departures Hget].
  destruct (json_elements_total (elems departures)) as (objects & Hobj & HF).
  exists departures, objects. split; [exact Hget|]. split; [exact HF|].
  unfold serve. rewrite Hp. cbn [String.eqb Ascii.eqb Bool.eqb].
  unfold handleDeparturesJSON. rewrite Hget.
  destruct departures as [|[|d l]]; cbn [elems List.length] in *.
  - inversion HF; subst. reflexivity.
  - inversion HF; subst. reflexivity.
  - change (Z.of_nat (S (List.length l)) =? 0) with false. cbv iota.
    unfold Encode, json_Departures. rewrite Hobj.
    cbn [mbind outcome_bind]. unfold http.Write, http.WriteHeader, http.Header_Set.
    cbn [http.status http.newResponseWriter http.Header http.body].
    f_equal. f_equal. rewrite !append_assoc'. reflexivity.
Qed.

(** X9.  Whenever the pipeline succeeds with at least one record, the text
    handler answers with status 200 and the head of the report followed by
    one block per record returned by [getDepartures], in that order. *)
Theorem text_report_lists_every_departure r response :
  http.Get (http.Query r) "siteId" <> "" ->
  fetchDepartures (http.Get (http.Query r) "siteId") = Ok response ->
  http.Path r = "/departures" ->
  exists departures,
    getDepartures fetchDepartures sort_Slice r
      = Ok (departures, http.Get (http.Query r) "siteId") /\
    (elems departures <> [] ->
     serve fetchDepartures sort_Slice r
     = Ok (http.mkResponseWriter ∅ (Some 200)
             (report_head (http.Get (http.Query r) "siteId")
              +:+ String.concat "" (map print_block (elems departures))))).
Proof.
  intros Hsite Hfetch Hp.
  assert (Hget : exists departures, getDepartures fetchDepartures sort_Slice r
                   = Ok (departures, http.Get (http.Query r) "siteId")).
  { unfold getDepartures. apply String.eqb_neq in Hsite. rewrite Hsite, Hfetch. eauto. }
  destruct Hget as [departures Hget]. exists departures. split; [exact Hget|].
  intros Hne. unfold serve. rewrite Hp. cbn [String.eqb Ascii.eqb Bool.eqb].
  unfold handleDepartures. rewrite Hget. unfold prettyPrintDepartures.
  destruct (elems departures) as [|d l] eqn:El; [contradiction|].
  change (Z.of_nat (List.length (d :: l)) =? 0) with false. cbv iota.
  rewrite write_blocks by reflexivity.
  unfold http.Write, http.WriteHeader, http.Header_Set.
  cbn [http.status http.newResponseWriter http.Header http.body].
  f_equal. f_equal. unfold report_head. rewrite !append_assoc'. reflexivity.
Qed.

End Responses.

(** X7.  When the first [siteId] value of the query is empty (the
    parameter absent, or given empty, also before a second value) the answer
    is the same whatever the provider and the sort would do: neither is
    reached. *)
Theorem empty_siteId_never_reaches_the_provider r :
  http.Get (http.Query r) "siteId" = "" ->
  forall fetch1 fetch2 sort1 sort2,
    getDepartures fetch1 sort1 r = Err (errorString "siteId query parameter is required") /\
    serve fetch1 sort1 r = serve fetch2 sort2 r.
Proof.
  intros Hsite fetch1 fetch2 sort1 sort2.
  assert (Hget : forall f s, getDepartures f s r
                             = Err (errorString "siteId query parameter is required")).
  { intros f s. unfold getDepartures. now rewrite Hsite. }
  split; [apply Hget|].
  unfold serve, handleDepartures, handleDeparturesJSON. now rewrite !Hget.
Qed.

Lemma fetch_error_response_witness :
  serve fetch_down shellsort.sort (GET "/departures/json" [("siteId", "9001")])
  = Ok (http.mkResponseWriter
          (<["X-Content-Type-Options" := "nosniff"]>
             {[ "Content-Type" := "text/plain; charset=utf-8" ]})
          (Some 500)
          ("Error fetching departure data: error making request: connection refused" +:+ nl)).
Proof.
  apply (fetch_error_response fetch_down shellsort.sort
           (GET "/departures/json" [("siteId", "9001")])
           (errorString "error making request: connection refused")).
  - vm_compute. discriminate.
  - reflexivity.
  - right. reflexivity.
Defined.

Lemma empty_siteId_never_reaches_the_provider_witness :
  serve (fetch_fixed seven) shellsort.sort
        (http.mkRequest "GET" "/departures" {[ "siteId" := [""; "9001"] ]})
  = serve fetch_down (fun _ l => l)
        (http.mkRequest "GET" "/departures" {[ "siteId" := [""; "9001"] ]}).
Proof.
  apply (empty_siteId_never_reaches_the_provider
           (http.mkRequest "GET" "/departures" {[ "siteId" := [""; "9001"] ]})).
  vm_compute. reflexivity.
Defined.

Lemma json_response_is_an_array_witness :
  exists departures objects,
    getDepartures (fetch_fixed seven) shellsort.sort
      (GET "/departures/json" [("siteId", "9001"); ("lineId", "7")])
      = Ok (departures, "9001") /\
    Forall2 (fun d o => json_Departure d = Ok o) (elems departures) objects /\
    serve (fetch_fixed seven) shellsort.sort
      (GET "/departures/json" [("siteId", "9001"); ("lineId", "7")])
    = Ok (http.mkResponseWriter {[ "Content-Type" := "application/json" ]} (Some 200)
            ("[" +:+ String.concat "," objects +:+ "]" +:+ nl)).
Proof.
  apply (json_response_is_an_array (fetch_fixed seven) shellsort.sort
           (GET "/departures/json" [("siteId", "9001"); ("lineId", "7")])
           (mkResponse (Slice seven))).
  - vm_compute. discriminate.
  - reflexivity.
  - reflexivity.
Defined.

Lemma text_report_lists_every_departure_witness :
  exists departures,
    getDepartures (fetch_fixed seven) shellsort.sort
      (GET "/departures" [("siteId", "9001"); ("lineId", "7")])
      = Ok (departures, "9001") /\
    (elems departures <> [] ->
     serve (fetch_fixed seven) shellsort.sort
       (GET "/departures" [("siteId", "9001"); ("lineId", "7")])
     = Ok (http.mkResponseWriter ∅ (Some 200)
             (report_head "9001" +:+ String.concat "" (map print_block (elems departures))))).
Proof.
  apply (text_report_lists_every_departure (fetch_fixed seven) shellsort.sort
           (GET "/departures" [("siteId", "9001"); ("lineId", "7")])
           (mkResponse (Slice seven))).
  - vm_compute. discriminate.
  - reflexivity.
  - reflexivity.
Defined.

(** ** The delay line and the comparison, once more *)

(** X10.  When the expected time is a whole number of days after (or
    before) the scheduled time, the two clock renderings are equal and the
    block has no delay line. *)
Theorem whole_day_delay_is_not_shown d k :
  time.sec (Time (Expected d)) = time.sec (Time (Scheduled d)) + 86400 * k ->
  time.Format (Time (Expected d)) layout_clock = time.Format (Time (Scheduled d)) layout_clock /\
  print_block d =
    "Line " +:+ Designation (Line_ d) +:+ " (ID: " +:+ itoa (ID (Line_ d)) +:+ ") to "
      +:+ Destination d +:+ nl
    +:+ "  Direction: " +:+ Direction d +:+ nl
    +:+ "  Scheduled: " +:+ time.Format (Time (Scheduled d)) layout_clock +:+ nl
    +:+ "  Expected:  " +:+ time.Format (Time (Expected d)) layout_clock +:+ nl
    +:+ divider +:+ nl.
Proof.
  intros Hk.
  assert (HF : time.Format (Time (Expected d)) layout_clock
               = time.Format (Time (Scheduled d)) layout_clock).
  { rewrite !Format_clock, Hk.
    replace ((time.sec (Time (Scheduled d)) + 86400 * k) / 60)
      with (time.sec (Time (Scheduled d)) / 60 + 1440 * k) by zdm.
    replace ((time.sec (Time (Scheduled d)) / 60 + 1440 * k) mod 1440)
      with ((time.sec (Time (Scheduled d)) / 60) mod 1440) by zdm.
    replace ((time.sec (Time (Scheduled d)) / 60 + 1440 * k) mod 60)
      with ((time.sec (Time (Scheduled d)) / 60) mod 60) by zdm.
    reflexivity. }
  split; [exact HF|].
  unfold print_block. rewrite HF, String.eqb_refl. reflexivity.
Qed.

Lemma whole_day_delay_is_not_shown_witness :
  let d := departure 1 "Downtown" "North" "2024-01-15T23:50:00" "2024-01-16T23:50:00" in
  delay_minutes d = 1440 /\
  print_block d =
    "Line 1 (ID: 1) to Downtown" +:+ nl +:+ "  Direction: North" +:+ nl +:+
    "  Scheduled: 23:50" +:+ nl +:+ "  Expected:  23:50" +:+ nl +:+ divider +:+ nl.
Proof.
  intros d. split; [vm_compute; reflexivity|].
  rewrite (proj2 (whole_day_delay_is_not_shown d 1 eq_refl)). vm_compute. reflexivity.
Defined.

(** X11.  The comparison handed to [sort.Slice] is a strict weak order:
    irreflexive and transitive, and two records are incomparable exactly
    when their expected times are equal, which is transitive. *)
Theorem less_is_a_strict_weak_order :
  (forall a, less a a = false) /\
  (forall a b c, less a b = true -> less b c = true -> less a c = true) /\
  (forall a b, less a b = false /\ less b a = false <-> same_expected a b = true) /\
  (forall a b c, same_expected a b = true -> same_expected b c = true ->
                 same_expected a c = true).
Proof.
  unfold less, same_expected, time.Before, time.Equal.
  split; [|split; [|split]].
  - intros a. apply orb_false_iff. rewrite andb_false_iff, !Z.ltb_ge. lia.
  - intros a b c.
    rewrite !orb_true_iff, !andb_true_iff, !Z.ltb_lt, !Z.eqb_eq. lia.
  - intros a b.
    rewrite !orb_false_iff, !andb_false_iff, andb_true_iff, !Z.ltb_ge, !Z.eqb_eq, !Z.eqb_neq.
    lia.
  - intros a b c. rewrite !andb_true_iff, !Z.eqb_eq. lia.
Qed.

(** ** The pipeline from the fetch to the result *)

Section Pipeline_facts.

Variable fetchDepartures : string -> outcome Response.
Variable sort_Slice : (Departure -> Departure -> bool) -> list Departure -> list Departure.
Hypothesis sort_Slice_ok : sort_Slice_contract sort_Slice.

(** X12.  With a [sort.Slice] that does what the library documents, the
    records [getDepartures] returns are the fetched records that pass the
    filters, as many as pass. *)
Theorem getDepartures_returns_the_kept_records r response departures siteID :
  fetchDepartures (http.Get (http.Query r) "siteId") = Ok response ->
  getDepartures fetchDepartures sort_Slice r = Ok (departures, siteID) ->
  siteID = http.Get (http.Query r) "siteId" /\
  (forall d, In d (elems departures) <->
             In d (elems (Departures response)) /\
             kept (http.Get (http.Query r) "lineId") (http.Get (http.Query r) "direction") d
             = true) /\
  List.length (elems departures)
  = List.length (List.filter (kept (http.Get (http.Query r) "lineId")
                                (http.Get (http.Query r) "direction"))
                   (elems (Departures response))).
Proof.
  intros Hfetch Hget. unfold getDepartures in Hget.
  destruct (String.eqb (http.Get (http.Query r) "siteId") ""); [discriminate Hget|].
  rewrite Hfetch in Hget. injection Hget as <- <-.
  split; [reflexivity|].
  assert (HP : Permutation
                 (elems (sort_in_place sort_Slice
                           (filterDepartures (elems (Departures response))
                              (http.Get (http.Query r) "lineId")
                              (http.Get (http.Query r) "direction"))))
                 (List.filter (kept (http.Get (http.Query r) "lineId")
                                 (http.Get (http.Query r) "direction"))
                    (elems (Departures response)))).
  { rewrite <- filterDepartures_elems.
    destruct (filterDepartures _ _ _) as [|l]; cbn [sort_in_place elems]; [reflexivity|].
    apply sort_Slice_ok. }
  split.
  - intros d. rewrite <- List.filter_In. split; intros H.
    + eapply Permutation_in; [exact HP|exact H].
    + eapply Permutation_in; [symmetry; exact HP|exact H].
  - apply Permutation_length, HP.
Qed.

End Pipeline_facts.

Lemma getDepartures_returns_the_kept_records_witness :
  List.length (elems (sort_in_place shellsort.sort (filterDepartures seven "3" "North")))
  = 1%nat.
Proof.
  pose proof (getDepartures_returns_the_kept_records (fetch_fixed seven) shellsort.sort
                shellsort_contract
                (GET "/departures" [("siteId", "9001"); ("lineId", "3"); ("direction", "North")])
                (mkResponse (Slice seven)) _ "9001" eq_refl eq_refl) as (_ & _ & H).
  exact H.
Defined.
